(** * The chat-bot orchestrator of packages/chat-bot/src/index.ts

    A shallow embedding of the conversation pipeline: the upgrade router,
    [getProjectQuestions], [formatQuestionsList], [formatChatHistory],
    [analyzeUserMessage], [generateResponse] and the per-frame handler that
    [handleConnection] installs, followed by the properties of the
    specification that concern them.

    Conventions.
    - A JavaScript string is a [string] holding its UTF-8 bytes.
    - A call that may throw returns a [Result]; [try]/[catch] is [try_catch].
    - Everything outside the file (the generative model, the backend, the
      engine's JSON functions, the socket) is a field of an [Env]; every call
      that crosses that boundary is appended to the [trace] of the [World].
    - [console.log] and [console.error] are not modelled. *)

From Stdlib Require Import ZArith QArith List String Ascii DecimalString Lia.
From stdpp Require Import base option list strings gmap.

Local Open Scope string_scope.
Local Open Scope list_scope.
Set Warnings "-register-all".

(** ** Strings *)

Definition nl : string := String (ascii_of_nat 10) EmptyString.
Definition dq : string := String (ascii_of_nat 34) EmptyString.

(** Template-literal rendering of a non-negative integer, [`${n}`]. *)
Definition showNat (n : nat) : string := NilEmpty.string_of_uint (Nat.to_uint n).

(** [Array.prototype.join]. *)
Fixpoint join (sep : string) (l : list string) : string :=
  match l with
  | [] => ""
  | [x] => x
  | x :: xs => x +:+ sep +:+ join sep xs
  end.

(** [Array.prototype.slice(-n)]: the elements from index [max (len - n) 0]
    on; the subtraction on [nat] stops at 0 as the clamp does. *)
Definition sliceLast {A} (n : nat) (l : list A) : list A :=
  drop (length l - n) l.

(** [String.prototype.toLowerCase]. Bytes 65..90 are the letters A..Z; the
    bytes of a character outside ASCII are kept. The engine maps some of those
    characters to other characters, none of which is a lower-case ASCII letter
    of the word compared with below (U+0130 becomes i followed by U+0307,
    U+212A becomes k), so the comparison of the source gives the same answer
    on every input. *)
Definition lowerByte (c : ascii) : ascii :=
  let n := nat_of_ascii c in
  if (65 <=? n)%nat && (n <=? 90)%nat then ascii_of_nat (n + 32) else c.

Fixpoint toLowerCase (s : string) : string :=
  match s with
  | EmptyString => EmptyString
  | String c s' => String (lowerByte c) (toLowerCase s')
  end.

(** [String.prototype.trim]: the white space and line terminators of
    ECMAScript, in UTF-8. [wsPrefix] gives what is left after one such
    character at the head of the bytes. *)
Definition wsPrefix (s : list nat) : option (list nat) :=
  match s with
  | 9 :: r | 10 :: r | 11 :: r | 12 :: r | 13 :: r | 32 :: r => Some r
  | 194 :: 160 :: r => Some r                     (* U+00A0 *)
  | 225 :: 154 :: 128 :: r => Some r              (* U+1680 *)
  | 226 :: 128 :: c :: r =>                       (* U+2000..U+200A, 2028, 2029, 202F *)
      if ((128 <=? c) && (c <=? 138) || (c =? 168) || (c =? 169) || (c =? 175))%nat
      then Some r else None
  | 226 :: 129 :: 159 :: r => Some r              (* U+205F *)
  | 227 :: 128 :: 128 :: r => Some r              (* U+3000 *)
  | 239 :: 187 :: 191 :: r => Some r              (* U+FEFF *)
  | _ => None
  end.

(** The same, for one white-space character at the end of the bytes, read
    backwards. *)
Definition wsSuffixRev (s : list nat) : option (list nat) :=
  match s with
  | 9 :: r | 10 :: r | 11 :: r | 12 :: r | 13 :: r | 32 :: r => Some r
  | 160 :: 194 :: r => Some r
  | 128 :: 154 :: 225 :: r => Some r
  | c :: 128 :: 226 :: r =>
      if ((128 <=? c) && (c <=? 138) || (c =? 168) || (c =? 169) || (c =? 175))%nat
      then Some r else None
  | 159 :: 129 :: 226 :: r => Some r
  | 128 :: 128 :: 227 :: r => Some r
  | 191 :: 187 :: 239 :: r => Some r
  | _ => None
  end.

Fixpoint stripWhile (strip : list nat -> option (list nat)) (fuel : nat)
    (s : list nat) : list nat :=
  match fuel with
  | O => s
  | S fuel' =>
      match strip s with
      | Some r => stripWhile strip fuel' r
      | None => s
      end
  end.

Definition bytesOf (s : string) : list nat := map nat_of_ascii (list_ascii_of_string s).
Definition stringOf (l : list nat) : string := string_of_list_ascii (map ascii_of_nat l).

Definition trim (s : string) : string :=
  let b := bytesOf s in
  let b1 := stripWhile wsPrefix (length b) b in
  let b2 := stripWhile wsSuffixRev (length b1) (rev b1) in
  stringOf (rev b2).

(** ** Data model *)

Inductive Sender := user | bot.

Record ChatMessage := {
  msg_id : string;
  msg_sender : Sender;
  msg_content : string;
  msg_timestamp : Z
}.

Record Session := {
  session_id : string;
  session_projectId : string;
  session_history : list ChatMessage;
  session_createdAt : Z
}.

(** An element of [Project['questions']]; the code reads [text] only. *)
Record Question := {
  question_id : string;
  question_text : string
}.

(** ** The two formatters *)

Definition numbered (i : nat) (q : Question) : string :=
  showNat (i + 1) +:+ ". " +:+ question_text q.

Definition noQuestionsText : string := "論点はまだ設定されていません。".

Definition formatQuestionsList (questions : list Question) : string :=
  if (length questions =? 0)%nat then noQuestionsText
  else "論点一覧:" +:+ nl +:+ join nl (imap numbered questions).

Definition roleLabel (s : Sender) : string :=
  match s with user => "ユーザー" | bot => "アシスタント" end.

Definition historyLine (msg : ChatMessage) : string :=
  roleLabel (msg_sender msg) +:+ ": " +:+ msg_content msg.

Definition formatChatHistory (history : list ChatMessage) : string :=
  join nl (map historyLine history).

(** ** Values read from the outside *)

(** What [JSON.parse] returns. A number is kept as its literal: the code
    never computes with one. *)
Inductive JSON :=
| JNull
| JBool (b : bool)
| JNumber (literal : string)
| JString (s : string)
| JArray (items : list JSON)
| JObject (fields : list (string * JSON)).

(** A thrown value; every one the code meets is an [Error] with a message. *)
Inductive Err := Error (message : string).

Inductive Result (A : Type) :=
| Ok (a : A)
| Throw (e : Err).
Arguments Ok {A} a.
Arguments Throw {A} e.

Fixpoint assoc (k : string) (fields : list (string * JSON)) : option JSON :=
  match fields with
  | [] => None
  | (k', v) :: rest => if String.eqb k k' then Some v else assoc k rest
  end.

(** Property access [v.k] on a parsed value: a TypeError on [null], the
    field of an object, and [undefined] ([None]) in every other case, since
    neither name read below is on a built-in prototype. *)
Definition getProp (v : JSON) (k : string) : Result (option JSON) :=
  match v with
  | JNull => Throw (Error "Cannot read properties of null")
  | JObject fields => Ok (assoc k fields)
  | _ => Ok None
  end.

(** The inbound frame at the type the source gives it,
    [WebSocketMessage]: a type and a text content. A frame of type "message"
    whose content is missing or is not a string is outside the model: the
    source hands that value to the session manager, whose code is absent and
    which the specification describes for text contents only; after that call
    [content.toLowerCase()] throws and the [catch] of the listener sends
    "Invalid message format". *)
Record WebSocketMessage := {
  wsm_type : string;
  wsm_content : string
}.

(** The outbound frames; [message] is [None] when [addMessage] returned
    nothing, in which case [JSON.stringify] leaves the key out. *)
Inductive Frame :=
| ErrorFrame (error : string)
| MessageFrame (message : option ChatMessage).

(** The request given to [model.generateContent]. *)
Record Content := {
  role : string;
  parts : list string
}.

Record GenerationConfig := {
  temperature : Q;
  topK : option Z;
  topP : option Q;
  maxOutputTokens : Z
}.

Record GenerateRequest := {
  contents : list Content;
  generationConfig : GenerationConfig
}.

(** The body of the comment submission. [sourceUrl] is always [null]. *)
Record CommentBody := {
  cb_content : string;
  cb_sourceType : string
}.

(** [CommentResponse], with the fields the code reads. *)
Record StanceEntry := {
  se_questionId : string;
  se_stanceId : string;
  se_confidence : Q
}.

Record AnalyzedQuestion := {
  aq_id : string;
  aq_text : string;
  aq_stances : list StanceEntry
}.

Record CommentResponse := {
  comment_id : string;
  analyzedQuestions : list AnalyzedQuestion
}.

(** The data of [GET /projects/{id}]; [questions] may be missing. *)
Record Project := {
  project_questions : option (list Question)
}.

(** The result of [analyzeUserMessage]. A confidence is a [Q]: the code only
    compares confidences, a finite double is a rational, and JSON has no NaN. *)
Record Stance := {
  stanceId : string;
  confidence : Q
}.

Record RelatedQuestion := {
  rq_id : string;
  rq_text : string;
  rq_stance : Stance
}.

Record Analysis := {
  commentId : option string;
  relatedQuestions : option (list RelatedQuestion)
}.

Definition emptyAnalysis : Analysis :=
  {| commentId := None; relatedQuestions := None |}.

(** ** The world *)

(** The calls that leave the process, in the order they are made. *)
Inductive Event :=
| EvGenerateContent (req : GenerateRequest)
| EvBackendGet (path : string)
| EvBackendPost (path : string) (body : CommentBody)
| EvWsSend (frame : Frame)
| EvSocketDestroy
| EvHandleUpgrade.

(** The collaborators. Each answer may depend on every call made so far.
    - [model_generateContent]: the call throws, or gives a response whose
      [text()] throws or gives the text;
    - [JSON_parse], [JSON_stringify], [percent]: the engine's [JSON.parse],
      [JSON.stringify(_, null, 2)] and [(c * 100).toFixed(1)];
    - [decodeFrame]: [JSON.parse] of an inbound frame, read at the type
      [WebSocketMessage] that the source gives it;
    - [handshake]: whether [wss.handleUpgrade] completes and calls back;
    - [freshId], [clock]: the identifiers and times the session manager
      draws, by the number of draws made before. *)
Record Env := {
  model_generateContent : list Event -> GenerateRequest -> Result (Result string);
  backend_getProject : list Event -> string -> Result Project;
  backend_postComment : list Event -> string -> CommentBody -> Result CommentResponse;
  backend_getReport : list Event -> string -> Result JSON;
  JSON_parse : string -> Result JSON;
  JSON_stringify : JSON -> string;
  percent : Q -> string;
  decodeFrame : string -> Result WebSocketMessage;
  handshake : list Event -> bool;
  freshId : nat -> string;
  clock : nat -> Z
}.

Record World := {
  sessions : gmap string Session;
  draws : nat;
  listeners : list (string * string);
  trace : list Event
}.

(** ** The monad of effects: state, and a thrown error or a value *)

Definition M (A : Type) : Type := World -> Result A * World.

Definition ret {A} (a : A) : M A := fun w => (Ok a, w).

Definition throw {A} (e : Err) : M A := fun w => (Throw e, w).

Definition bind {A B} (m : M A) (k : A -> M B) : M B :=
  fun w =>
    match m w with
    | (Ok a, w') => k a w'
    | (Throw e, w') => (Throw e, w')
    end.

(** [try { m } catch (error) { h error }]: what [m] did before it threw
    stays done. *)
Definition try_catch {A} (m : M A) (h : Err -> M A) : M A :=
  fun w =>
    match m w with
    | (Ok a, w') => (Ok a, w')
    | (Throw e, w') => h e w'
    end.

Definition lift {A} (r : Result A) : M A := fun w => (r, w).

Notation "'let!' x ':=' m 'in' k" := (bind m (fun x => k))
  (at level 10, x name, m at level 100, k at level 200).

(** The world after some more calls across the boundary. *)
Definition log (evs : list Event) (w : World) : World :=
  {| sessions := sessions w; draws := draws w;
     listeners := listeners w; trace := trace w ++ evs |}.

(** One call across the boundary: log it, and take the answer the
    collaborator gives after the calls made before. *)
Definition emit (e : Event) : M unit :=
  fun w => (Ok tt, log [e] w).

Definition call {A} (e : Event) (answer : list Event -> Result A) : M A :=
  fun w => (answer (trace w), log [e] w).

(** ** The session manager *)

Definition setSessions (f : gmap string Session -> gmap string Session) : M unit :=
  fun w => (Ok tt, {| sessions := f (sessions w); draws := draws w;
                      listeners := listeners w; trace := trace w |}).

Section Program.

Variable env : Env.

(** Drawing an identifier and a time from the environment. *)
Definition draw : M (string * Z) :=
  fun w => (Ok (freshId env (draws w), clock env (draws w)),
            {| sessions := sessions w; draws := S (draws w);
               listeners := listeners w; trace := trace w |}).

(** Modelled from the spec: [SessionManager.createSession] of
    ./services/SessionManager, which is not among the sources. It allocates a
    session with a new id and an empty history and puts it in the map. *)
Definition createSession (projectId : string) : M Session :=
  let! d := draw in
  let session := {| session_id := d.1; session_projectId := projectId;
                    session_history := []; session_createdAt := d.2 |} in
  let! _ := setSessions (fun m => <[d.1 := session]> m) in
  ret session.

(** Modelled from the spec: [SessionManager.getSession], a lookup. *)
Definition getSession (sessionId : string) : M (option Session) :=
  fun w => (Ok (sessions w !! sessionId), w).

(** Modelled from the spec: [SessionManager.addMessage]. It appends a new
    message to the history of the session and returns it; for an unknown
    session id it returns nothing and changes nothing. *)
Definition addMessage (sessionId content : string) (sender : Sender)
    : M (option ChatMessage) :=
  let! found := getSession sessionId in
  match found with
  | None => ret None
  | Some session =>
      let! d := draw in
      let message := {| msg_id := d.1; msg_sender := sender;
                        msg_content := content; msg_timestamp := d.2 |} in
      let! _ := setSessions (fun m =>
        <[sessionId := {| session_id := session_id session;
                          session_projectId := session_projectId session;
                          session_history := session_history session ++ [message];
                          session_createdAt := session_createdAt session |}]> m) in
      ret (Some message)
  end.

(** ** [getProjectQuestions] *)

Definition projectPath (projectId : string) : string := "/projects/" +:+ projectId.

Definition getProjectQuestions (projectId : string) : M (list Question) :=
  try_catch
    (let! response := call (EvBackendGet (projectPath projectId))
                           (fun t => backend_getProject env t (projectPath projectId)) in
     ret (default [] (project_questions response)))
    (fun _ => ret []).

(** ** [analyzeUserMessage] *)

Definition extractionPrompt (userMessage : string) (history : list ChatMessage) : string :=
  nl +:+
  "以下の会話履歴とユーザーの最新の発言を分析し、厳密なJSON形式で返答してください。余分な説明は不要です。

会話履歴：
" +:+ formatChatHistory (sliceLast 5 history) +:+ "

最新の発言：
" +:+ userMessage +:+ "

必要な分析：
最新の発言の主張を、会話の文脈を踏まえて整理し、以下のJSON形式で返してください。
主張が明確な場合：{" +:+ dq +:+ "hasContent" +:+ dq +:+ ":true," +:+ dq +:+ "content" +:+ dq +:+ ":"
  +:+ dq +:+ "文脈を考慮して整理された内容" +:+ dq +:+ "}
主張が不明確/存在しない場合(例:挨拶,あいずち等)：{" +:+ dq +:+ "hasContent" +:+ dq +:+ ":false}

注意：
- 返答は必ず上記のJSON形式のみとし、説明文や改行を含めないでください
- JSON内の文字列は必ずダブルクォートで囲んでください
- 最新の発言のみを分析対象とし、会話履歴は文脈理解のために使用してください
".

Definition extractionRequest (userMessage : string) (history : list ChatMessage)
    : GenerateRequest :=
  {| contents := [ {| role := "user"; parts := [extractionPrompt userMessage history] |} ];
     generationConfig := {| temperature := 3 # 10; topK := None; topP := None;
                            maxOutputTokens := 1024 |} |}.

(** The validated [analysisResult]. *)
Inductive Extraction :=
| NoContent
| HasContent (content : string).

(** The inner [try] of the source: parse and validate. [inl] is the value
    the code goes on with, [inr] the value its [catch] returns at once. *)
Definition parseExtraction (responseText : string) : M (Extraction + Analysis) :=
  try_catch
    (let! analysisResult := lift (JSON_parse env responseText) in
     let! hasContent := lift (getProp analysisResult "hasContent") in
     match hasContent with
     | Some (JBool true) =>
         let! content := lift (getProp analysisResult "content") in
         match content with
         | Some (JString c) => ret (inl (HasContent c))
         | _ => throw (Error "Invalid response format: content must be a string when hasContent is true")
         end
     | Some (JBool false) => ret (inl NoContent)
     | _ => throw (Error "Invalid response format: hasContent must be a boolean")
     end)
    (fun _ => ret (inr emptyAnalysis)).

Definition commentsPath (projectId : string) : string :=
  "/projects/" +:+ projectId +:+ "/comments".

(** The callback of [analyzedQuestions.map]: the first stance, or [null]. *)
Definition firstStance (q : AnalyzedQuestion) : option RelatedQuestion :=
  match aq_stances q with
  | [] => None
  | stance :: _ =>
      Some {| rq_id := aq_id q; rq_text := aq_text q;
              rq_stance := {| stanceId := se_stanceId stance;
                              confidence := se_confidence stance |} |}
  end.

(** [.map(..).filter(q => q !== null)], and [undefined] for an empty list. *)
Definition relatedOf (r : CommentResponse) : option (list RelatedQuestion) :=
  let relatedQuestions := omap firstStance (analyzedQuestions r) in
  if (0 <? length relatedQuestions)%nat then Some relatedQuestions else None.

Definition analyzeUserMessage (userMessage projectId : string)
    (history : list ChatMessage) : M Analysis :=
  try_catch
    (let req := extractionRequest userMessage history in
     let! result := call (EvGenerateContent req)
                         (fun t => model_generateContent env t req) in
     let! text := lift result in
     let responseText := trim text in
     let! parsed := parseExtraction responseText in
     match parsed with
     | inr early => ret early
     | inl NoContent => ret emptyAnalysis
     | inl (HasContent content) =>
         let body := {| cb_content := content; cb_sourceType := "other" |} in
         let! commentResponse :=
           call (EvBackendPost (commentsPath projectId) body)
                (fun t => backend_postComment env t (commentsPath projectId) body) in
         ret {| commentId := Some (comment_id commentResponse);
                relatedQuestions := relatedOf commentResponse |}
     end)
    (fun _ => ret emptyAnalysis).

(** ** [generateResponse] *)

(** [Array.prototype.reduce] without an initial value: the first element
    starts the accumulation; on an empty array it throws. *)
Definition reduce {A} (f : A -> A -> A) (l : list A) : Result A :=
  match l with
  | [] => Throw (Error "Reduce of empty array with no initial value")
  | x :: xs => Ok (fold_left f xs x)
  end.

(** [a > b] on confidences. *)
Definition Qgtb (a b : Q) : bool := negb (Qle_bool a b).

Definition moreConfident (prev current : RelatedQuestion) : RelatedQuestion :=
  if Qgtb (confidence (rq_stance current)) (confidence (rq_stance prev))
  then current else prev.

Definition stanceAnalysisPath (projectId questionId : string) : string :=
  "/projects/" +:+ projectId +:+ "/questions/" +:+ questionId +:+ "/stance-analysis".

Definition contextBlock (primaryQuestion : RelatedQuestion) (report : JSON) : string :=
  nl +:+ "選択された論点「" +:+ rq_text primaryQuestion +:+ "」に関する分析レポート：
" +:+ JSON_stringify env report +:+ "

あなたの立場: " +:+ stanceId (rq_stance primaryQuestion) +:+ "
確信度: " +:+ percent env (confidence (rq_stance primaryQuestion)) +:+ "%
".

(** The block of the source that computes [contextualInfo]. *)
Definition resolveContext (projectId : string) (analysis : Analysis) : M string :=
  match relatedQuestions analysis with
  | Some ((_ :: _) as related) =>
      let! primaryQuestion := lift (reduce moreConfident related) in
      try_catch
        (let path := stanceAnalysisPath projectId (rq_id primaryQuestion) in
         let! report := call (EvBackendGet path)
                             (fun t => backend_getReport env t path) in
         ret (contextBlock primaryQuestion report))
        (fun _ => ret "")
  | _ => ret ""
  end.

Definition systemPrompt (questions : list Question) (contextualInfo : string) : string :=
  nl +:+
  "あなたは議論を深めるための議論相手です。以下の論点に基づいて、ユーザーの発言を分析し、
適切な論点に誘導しながら建設的な議論を展開してください。

【論点一覧】
" +:+ join nl (imap numbered questions) +:+ "

" +:+ (if String.eqb contextualInfo "" then "" else contextualInfo) +:+ "

以下の点を意識して返答を生成してください：
1. ユーザーの発言が論点のいずれかに関連している場合：
   - 分析レポートを参考に、ユーザーと異なる立場からの意見を提示
   - ユーザーと異なる立場の根拠や具体例を示しながら、建設的な議論を展開
2. ユーザーの発言が論点から外れている場合：
   - 最も関連性の高い論点に自然に誘導
   - その論点が重要である理由や、議論する価値を説明
3. 常に建設的で具体的な議論となるよう導く
4. 一方的な主張を避け、ユーザーの意見を引き出すよう心がける

回答の長さや温度感は、相手に完全に合わせて回答を生成してください。長さは最大でも2~3文.

重要指示：初対面の人との自然な会話のように、温かくて親しみやすい口調で返答してください。感情を込めた表現は歓迎しますが、絵文字の使用は避けてください。
".

Definition historyTurn (msg : ChatMessage) : Content :=
  {| role := match msg_sender msg with user => "user" | bot => "model" end;
     parts := [msg_content msg] |}.

Definition conversation (userMessage : string) (questions : list Question)
    (contextualInfo : string) (history : list ChatMessage) : list Content :=
  [ {| role := "user"; parts := [systemPrompt questions contextualInfo] |} ]
  ++ map historyTurn (sliceLast 5 history)
  ++ [ {| role := "user"; parts := [userMessage] |} ].

Definition generationRequest (userMessage : string) (questions : list Question)
    (contextualInfo : string) (history : list ChatMessage) : GenerateRequest :=
  {| contents := conversation userMessage questions contextualInfo history;
     generationConfig := {| temperature := 7 # 10; topK := Some 40%Z;
                            topP := Some (95 # 100); maxOutputTokens := 1024 |} |}.

Definition apology : string :=
  "すみません、応答の生成中にエラーが発生しました。APIキーの設定や権限を確認してください。".

(** The body of the [try] of [generateResponse]. *)
Definition generateBody (userMessage projectId : string) (questions : list Question)
    (history : list ChatMessage) : M string :=
  let! analysis := analyzeUserMessage userMessage projectId history in
  let! contextualInfo := resolveContext projectId analysis in
  let req := generationRequest userMessage questions contextualInfo history in
  let! result := call (EvGenerateContent req)
                      (fun t => model_generateContent env t req) in
  lift result.

Definition generateResponse (userMessage projectId : string) (questions : list Question)
    (history : list ChatMessage) : M string :=
  try_catch (generateBody userMessage projectId questions history)
            (fun _ => ret apology).

(** ** [handleConnection] *)

Definition wsSend (frame : Frame) : M unit := emit (EvWsSend frame).

(** The two branches that compute [response]. *)
Definition questionsCommand (projectId : string) : M string :=
  let! questions := getProjectQuestions projectId in
  ret (formatQuestionsList questions).

Definition fullPipeline (content projectId : string) (history : list ChatMessage)
    : M string :=
  let! questions := getProjectQuestions projectId in
  generateResponse content projectId questions history.

(** The listener of ['message']. The history handed to [generateResponse]
    is the one of the session read after the user message was added. A turn
    is modelled on its own: the listener is an async function that the
    emitter does not await, and what a second frame of the same connection
    does while a turn waits for a collaborator is outside the model. *)
Definition onMessage (sessionId projectId data : string) : M unit :=
  try_catch
    (let! message := lift (decodeFrame env data) in
     if String.eqb (wsm_type message) "message" then
       let! userMessage := addMessage sessionId (wsm_content message) user in
       match userMessage with
       | None => wsSend (ErrorFrame "Session not found")
       | Some _ =>
           let! session := getSession sessionId in
           match session with
           | None => wsSend (ErrorFrame "Session not found")
           | Some session =>
               let! response :=
                 (if String.eqb (toLowerCase (wsm_content message)) "questions"
                  then questionsCommand projectId
                  else fullPipeline (wsm_content message) projectId
                                    (session_history session)) in
               let! botMessage := addMessage sessionId response bot in
               wsSend (MessageFrame botMessage)
           end
       end
     else ret tt)
    (fun _ => wsSend (ErrorFrame "Invalid message format")).

(** [handleConnection] installs the listeners of one connection. *)
Definition handleConnection (sessionId projectId : string) : M unit :=
  fun w => (Ok tt, {| sessions := sessions w; draws := draws w;
                      listeners := listeners w ++ [(sessionId, projectId)];
                      trace := trace w |}).

(** ** The upgrade router *)

Fixpoint stripPrefix (p s : string) : option string :=
  match p, s with
  | EmptyString, _ => Some s
  | String a p', String b s' => if Ascii.eqb a b then stripPrefix p' s' else None
  | String _ _, EmptyString => None
  end.

(** The longest prefix without [c], and what follows it. *)
Fixpoint spanNot (c : ascii) (s : string) : string * string :=
  match s with
  | EmptyString => (EmptyString, EmptyString)
  | String a s' =>
      if Ascii.eqb a c then (EmptyString, s)
      else let (h, t) := spanNot c s' in (String a h, t)
  end.

(** [pathname.match(/^\/project\/([^\/]+)\/chat$/)], giving group 1. The
    class takes every character but the slash, as many as there are; what
    follows must be a slash, so no shorter run can match instead. *)
Definition matchProjectChat (pathname : string) : option string :=
  match stripPrefix "/project/" pathname with
  | None => None
  | Some rest =>
      let (projectId, tail) := spanNot "/" rest in
      if String.eqb projectId "" then None
      else if String.eqb tail "/chat" then Some projectId
      else None
  end.

(** The listener of ['upgrade']; [url] is [request.url]. *)
Definition onUpgrade (url : option string) : M unit :=
  match url ≫= matchProjectChat with
  | None => emit EvSocketDestroy
  | Some projectId =>
      let! completed := call EvHandleUpgrade (fun t => Ok (handshake env t)) in
      if (completed : bool) then
        let! session := createSession projectId in
        handleConnection (session_id session) projectId
      else ret tt
  end.

End Program.

(** ** Start-up *)

(** The variables of [process.env] the file reads; [None] is [undefined]. *)
Record ProcessEnv := {
  GEMINI_API_KEY : option string;
  ADMIN_API_KEY : option string;
  BACKEND_API_URL : option string;
  PORT : option string
}.

(** What the top level of the file sets up when it does not exit: the name
    of the model and the key given to [GoogleGenerativeAI], the base URL and
    the [x-api-key] header of [backendApi], and the port given to
    [server.listen], a string of the environment or the number 3030. *)
Record Config := {
  cfg_model : string;
  cfg_geminiKey : string;
  cfg_baseURL : string;
  cfg_xApiKey : string;
  cfg_port : string + Z
}.

(** A variable that is [undefined] or the empty string is falsy: [!v]
    holds and [v || d] is [d]. *)
Definition truthy (v : option string) : option string :=
  match v with
  | Some s => if String.eqb s "" then None else Some s
  | None => None
  end.

(** The top level of the file, read in order; [inl] is the code given to
    [process.exit]. *)
Definition startup (e : ProcessEnv) : Z + Config :=
  match truthy (GEMINI_API_KEY e) with
  | None => inl 1%Z
  | Some geminiKey =>
      match truthy (ADMIN_API_KEY e) with
      | None => inl 1%Z
      | Some adminKey =>
          inr {| cfg_model := "gemini-2.0-flash";
                 cfg_geminiKey := geminiKey;
                 cfg_baseURL := default "http://localhost:3001/api"
                                        (truthy (BACKEND_API_URL e));
                 cfg_xApiKey := adminKey;
                 cfg_port := match truthy (PORT e) with
                             | Some port => inl port
                             | None => inr 3030%Z
                             end |}
      end
  end.

(** ** Notions used to state the properties *)

(** A computation that only talks to the collaborators: it leaves the
    sessions, the draws and the listeners alone and adds to the trace. *)
Definition External {A} (m : M A) : Prop :=
  forall w, exists evs, (m w).2 = log evs w.

(** A computation that returns a value from every world: it never throws. *)
Definition Total {A} (m : M A) : Prop :=
  forall w, exists a, (m w).1 = Ok a.

(** The message [addMessage] creates in world [w], and the world it leaves
    when the session is known. *)
Definition messageOf (env : Env) (sender : Sender) (content : string) (w : World)
    : ChatMessage :=
  {| msg_id := freshId env (draws w); msg_sender := sender;
     msg_content := content; msg_timestamp := clock env (draws w) |}.

Definition withMessage (message : ChatMessage) (session : Session) : Session :=
  {| session_id := session_id session;
     session_projectId := session_projectId session;
     session_history := session_history session ++ [message];
     session_createdAt := session_createdAt session |}.

Definition appended (env : Env) (sessionId : string) (sender : Sender)
    (content : string) (w : World) : World :=
  match sessions w !! sessionId with
  | None => w
  | Some session =>
      {| sessions := <[sessionId := withMessage (messageOf env sender content w) session]>
                       (sessions w);
         draws := S (draws w); listeners := listeners w; trace := trace w |}
  end.

(** The world after the reply [response] was stored and sent. *)
Definition delivered (env : Env) (sessionId response : string) (w : World) : World :=
  log [EvWsSend (MessageFrame (Some (messageOf env bot response w)))]
      (appended env sessionId bot response w).

(** The confidence of a related question. *)
Definition conf (q : RelatedQuestion) : Q := confidence (rq_stance q).

(** The requests made to the model, and the comments posted to the
    backend, among some calls. *)
Definition requests (evs : list Event) : list GenerateRequest :=
  omap (fun e => match e with EvGenerateContent req => Some req | _ => None end) evs.

Definition posts (evs : list Event) : list (string * CommentBody) :=
  omap (fun e => match e with EvBackendPost path body => Some (path, body) | _ => None end) evs.

(** The frames sent on the socket among some calls. *)
Definition frames (evs : list Event) : list Frame :=
  omap (fun e => match e with EvWsSend frame => Some frame | _ => None end) evs.

(** The member [k] of a parsed value, if it is an object that has one. *)
Definition member (v : JSON) (k : string) : option JSON :=
  match v with
  | JObject fields => assoc k fields
  | _ => None
  end.

(** A response text the claim extraction rejects: it is not JSON, or its
    [hasContent] is missing or not a boolean, or [hasContent] is true and
    [content] is not a string. *)
Inductive Malformed (env : Env) (responseText : string) : Prop :=
| NotJSON e :
    JSON_parse env responseText = Throw e -> Malformed env responseText
| BadHasContent v :
    JSON_parse env responseText = Ok v ->
    (forall b, member v "hasContent" <> Some (JBool b)) ->
    Malformed env responseText
| BadContent v :
    JSON_parse env responseText = Ok v ->
    member v "hasContent" = Some (JBool true) ->
    (forall c, member v "content" <> Some (JString c)) ->
    Malformed env responseText.

(** The related questions as the specification words them: a question
    without a stance entry is dropped, any other contributes its first. *)
Fixpoint contributions (qs : list AnalyzedQuestion) : list RelatedQuestion :=
  match qs with
  | [] => []
  | q :: rest =>
      match aq_stances q with
      | [] => contributions rest
      | first :: _ =>
          {| rq_id := aq_id q; rq_text := aq_text q;
             rq_stance := {| stanceId := se_stanceId first;
                             confidence := se_confidence first |} |}
          :: contributions rest
      end
  end.

(** The paths the specification accepts: [/project/{projectId}/chat] with
    a [projectId] that is not empty and holds no slash. *)
Fixpoint hasChar (c : ascii) (s : string) : Prop :=
  match s with
  | EmptyString => False
  | String a s' => a = c \/ hasChar c s'
  end.

Definition ChatPath (pathname projectId : string) : Prop :=
  pathname = "/project/" +:+ projectId +:+ "/chat" /\
  projectId <> "" /\
  ~ hasChar "/" projectId.

(** The world after an upgrade was accepted for [projectId]: the handshake
    is logged, a session with a new id and an empty history is in the store,
    and the listeners of the connection are installed for it. *)
Definition accepted (env : Env) (projectId : string) (w : World) : World :=
  {| sessions := <[freshId env (draws w) :=
                     {| session_id := freshId env (draws w);
                        session_projectId := projectId;
                        session_history := [];
                        session_createdAt := clock env (draws w) |}]> (sessions w);
     draws := S (draws w);
     listeners := listeners w ++ [(freshId env (draws w), projectId)];
     trace := trace w ++ [EvHandleUpgrade] |}.

(** A byte that is the letter [d] or its capital. *)
Definition caseVariant (c d : ascii) : Prop :=
  c = d \/ (nat_of_ascii c + 32 = nat_of_ascii d)%nat.

(** A variable of the environment that is missing or empty. *)
Definition unset (v : option string) : Prop := v = None \/ v = Some "".

(** The claim the extraction yields in world [w], if any: the model
    answers the extraction request with a text that, trimmed, parses to a
    value whose [hasContent] is [true] and whose [content] is the string. *)
Definition extractedClaim (env : Env) (w : World) (userMessage : string)
    (history : list ChatMessage) (claim : string) : Prop :=
  exists text v,
    model_generateContent env (trace w) (extractionRequest userMessage history)
    = Ok (Ok text) /\
    JSON_parse env (trim text) = Ok v /\
    member v "hasContent" = Some (JBool true) /\
    member v "content" = Some (JString claim).

(** The path of a request target: what comes before the first question
    mark, the rest being the query string. *)
Definition requestPath (target : string) : string := (spanNot "?" target).1.

(** ** A sample environment

    A project with one question, a backend that is up or down, a model that
    gives the same answer to every request, and an engine that knows two JSON
    texts and three frames. *)

Definition claimText : string :=
  "{" +:+ dq +:+ "hasContent" +:+ dq +:+ ":true," +:+ dq +:+ "content" +:+ dq +:+ ":"
  +:+ dq +:+ "X is needed" +:+ dq +:+ "}".

Definition sampleParse (s : string) : Result JSON :=
  if String.eqb s claimText
  then Ok (JObject [("hasContent", JBool true); ("content", JString "X is needed")])
  else if String.eqb s "null" then Ok JNull
  else Throw (Error "Unexpected token").

Definition frameText (content : string) : string :=
  "{" +:+ dq +:+ "type" +:+ dq +:+ ":" +:+ dq +:+ "message" +:+ dq +:+ ","
  +:+ dq +:+ "content" +:+ dq +:+ ":" +:+ dq +:+ content +:+ dq +:+ "}".

Definition sampleDecode (data : string) : Result WebSocketMessage :=
  match filter (fun c => String.eqb data (frameText c) = true)
               ["questions"; " questions"; "I think X is needed"] with
  | c :: _ => Ok {| wsm_type := "message"; wsm_content := c |}
  | [] => Throw (Error "Unexpected token")
  end.

Definition sampleQuestion : Question :=
  {| question_id := "q1"; question_text := "Should X?" |}.

Definition sampleComment : CommentResponse :=
  {| comment_id := "c1";
     analyzedQuestions :=
       [ {| aq_id := "q1"; aq_text := "Should X?";
            aq_stances := [ {| se_questionId := "q1"; se_stanceId := "pro";
                               se_confidence := 9 # 10 |};
                            {| se_questionId := "q1"; se_stanceId := "con";
                               se_confidence := 1 # 10 |} ] |};
         {| aq_id := "q2"; aq_text := "Should Y?"; aq_stances := [] |} ] |}.

Definition sampleEnv (answer : Result (Result string)) (up : bool) : Env :=
  {| model_generateContent := fun _ _ => answer;
     backend_getProject := fun _ _ =>
       if up then Ok {| project_questions := Some [sampleQuestion] |}
       else Throw (Error "ECONNREFUSED");
     backend_postComment := fun _ _ _ =>
       if up then Ok sampleComment else Throw (Error "ECONNREFUSED");
     backend_getReport := fun _ _ =>
       if up then Ok (JObject []) else Throw (Error "ECONNREFUSED");
     JSON_parse := sampleParse;
     JSON_stringify := fun _ => "{}";
     percent := fun _ => "90.0";
     decodeFrame := sampleDecode;
     handshake := fun _ => true;
     freshId := fun n => "id-" +:+ showNat n;
     clock := fun n => Z.of_nat n |}.

Definition sampleSession : Session :=
  {| session_id := "s1"; session_projectId := "p1";
     session_history := []; session_createdAt := 0 |}.

Definition sampleWorld : World :=
  {| sessions := {[ "s1" := sampleSession ]}; draws := 0;
     listeners := [("s1", "p1")]; trace := [] |}.

(** Three related questions with the confidences 0.4, 0.9 and 0.6. *)
Definition sampleRelated : list RelatedQuestion :=
  [ {| rq_id := "q1"; rq_text := "Should X?";
       rq_stance := {| stanceId := "pro"; confidence := 4 # 10 |} |};
    {| rq_id := "q2"; rq_text := "Should Y?";
       rq_stance := {| stanceId := "con"; confidence := 9 # 10 |} |};
    {| rq_id := "q3"; rq_text := "Should Z?";
       rq_stance := {| stanceId := "pro"; confidence := 6 # 10 |} |} ].

(** The same environment with a backend that has no stance analysis. *)
Definition withoutReports (env : Env) : Env :=
  {| model_generateContent := model_generateContent env;
     backend_getProject := backend_getProject env;
     backend_postComment := backend_postComment env;
     backend_getReport := fun _ _ => Throw (Error "Request failed with status code 404");
     JSON_parse := JSON_parse env;
     JSON_stringify := JSON_stringify env;
     percent := percent env;
     decodeFrame := decodeFrame env;
     handshake := handshake env;
     freshId := freshId env;
     clock := clock env |}.

(** The related question of [sampleComment]. *)
Definition sampleRelatedQuestion : RelatedQuestion :=
  {| rq_id := "q1"; rq_text := "Should X?";
     rq_stance := {| stanceId := "pro"; confidence := 9 # 10 |} |}.

(** * Properties *)

(** ** Runs of the monad *)

Lemma log_nil w : log [] w = w.
Proof. destruct w; unfold log; simpl. by rewrite app_nil_r. Qed.

Lemma log_log a b w : log b (log a w) = log (a ++ b) w.
Proof. unfold log; simpl. by rewrite app_assoc. Qed.

Lemma bind_ok {A B} (m : M A) (k : A -> M B) w a w' :
  m w = (Ok a, w') -> bind m k w = k a w'.
Proof. unfold bind. by intros ->. Qed.

Lemma bind_throw {A B} (m : M A) (k : A -> M B) w e w' :
  m w = (Throw e, w') -> bind m k w = (Throw e, w').
Proof. unfold bind. by intros ->. Qed.

Lemma try_ok {A} (m : M A) h w a w' :
  m w = (Ok a, w') -> try_catch m h w = (Ok a, w').
Proof. unfold try_catch. by intros ->. Qed.

Lemma try_throw {A} (m : M A) h w e w' :
  m w = (Throw e, w') -> try_catch m h w = h e w'.
Proof. unfold try_catch. by intros ->. Qed.

Lemma External_ret {A} (a : A) : External (ret a).
Proof. intros w. exists []. by rewrite log_nil. Qed.

Lemma External_throw {A} e : External (@throw A e).
Proof. intros w. exists []. by rewrite log_nil. Qed.

Lemma External_lift {A} (r : Result A) : External (lift r).
Proof. intros w. exists []. by rewrite log_nil. Qed.

Lemma External_call {A} e (f : list Event -> Result A) : External (call e f).
Proof. intros w. by exists [e]. Qed.

Lemma External_emit e : External (emit e).
Proof. intros w. by exists [e]. Qed.

Lemma External_bind {A B} (m : M A) (k : A -> M B) :
  External m -> (forall a, External (k a)) -> External (bind m k).
Proof.
  intros Hm Hk w. unfold bind.
  destruct (Hm w) as [evs Hevs]. destruct (m w) as [[a|e] w1]; simpl in Hevs; subst.
  - destruct (Hk a (log evs w)) as [evs' Hevs']. exists (evs ++ evs').
    by rewrite Hevs', log_log.
  - by exists evs.
Qed.

Lemma External_try_catch {A} (m : M A) h :
  External m -> (forall e, External (h e)) -> External (try_catch m h).
Proof.
  intros Hm Hh w. unfold try_catch.
  destruct (Hm w) as [evs Hevs]. destruct (m w) as [[a|e] w1]; simpl in Hevs; subst.
  - by exists evs.
  - destruct (Hh e (log evs w)) as [evs' Hevs']. exists (evs ++ evs').
    by rewrite Hevs', log_log.
Qed.

Lemma Total_ret {A} (a : A) : Total (ret a).
Proof. intros w. by exists a. Qed.

Lemma Total_bind {A B} (m : M A) (k : A -> M B) :
  Total m -> (forall a, Total (k a)) -> Total (bind m k).
Proof.
  intros Hm Hk w. unfold bind. destruct (Hm w) as [a Ha].
  destruct (m w) as [r w1]; simpl in Ha; subst. apply Hk.
Qed.

Lemma Total_try_catch {A} (m : M A) h :
  (forall e, Total (h e)) -> Total (try_catch m h).
Proof.
  intros Hh w. unfold try_catch. destruct (m w) as [[a|e] w1].
  - by exists a.
  - apply Hh.
Qed.

(** Decomposing a computation along its binds, handlers and matches. *)
Ltac runs :=
  repeat first
    [ match goal with |- forall _, _ => intro end
    | assumption
    | apply External_ret | apply External_throw | apply External_lift
    | apply External_call | apply External_emit
    | apply Total_ret
    | match goal with
      | |- External (bind _ _) => apply External_bind
      | |- External (try_catch _ _) => apply External_try_catch
      | |- Total (try_catch _ _) => apply Total_try_catch
      | |- Total (bind _ _) => apply Total_bind
      | |- External (match ?x with _ => _ end) => destruct x
      | |- External (if ?x then _ else _) => destruct x
      end ].

Section Facts.

Variable env : Env.

Lemma External_getProjectQuestions p : External (getProjectQuestions env p).
Proof. unfold getProjectQuestions. runs. Qed.

Lemma Total_getProjectQuestions p : Total (getProjectQuestions env p).
Proof. unfold getProjectQuestions. runs. Qed.

Lemma External_parseExtraction t : External (parseExtraction env t).
Proof. unfold parseExtraction. runs. Qed.

Lemma Total_parseExtraction t : Total (parseExtraction env t).
Proof. unfold parseExtraction. runs. Qed.

Lemma External_analyzeUserMessage u p h : External (analyzeUserMessage env u p h).
Proof. unfold analyzeUserMessage. runs. apply External_parseExtraction. Qed.

Lemma Total_analyzeUserMessage u p h : Total (analyzeUserMessage env u p h).
Proof. unfold analyzeUserMessage. runs. Qed.

Lemma External_resolveContext p a : External (resolveContext env p a).
Proof. unfold resolveContext. runs. Qed.

Lemma External_generateBody u p qs h : External (generateBody env u p qs h).
Proof.
  unfold generateBody. runs;
    [apply External_analyzeUserMessage | apply External_resolveContext].
Qed.

Lemma External_generateResponse u p qs h : External (generateResponse env u p qs h).
Proof. unfold generateResponse. runs. apply External_generateBody. Qed.

Lemma Total_generateResponse u p qs h : Total (generateResponse env u p qs h).
Proof. unfold generateResponse. runs. Qed.

Lemma External_questionsCommand p : External (questionsCommand env p).
Proof. unfold questionsCommand. runs. apply External_getProjectQuestions. Qed.

Lemma Total_questionsCommand p : Total (questionsCommand env p).
Proof. unfold questionsCommand. runs. apply Total_getProjectQuestions. Qed.

Lemma External_fullPipeline c p h : External (fullPipeline env c p h).
Proof.
  unfold fullPipeline. runs;
    [apply External_getProjectQuestions | apply External_generateResponse].
Qed.

Lemma Total_fullPipeline c p h : Total (fullPipeline env c p h).
Proof.
  unfold fullPipeline. runs;
    [apply Total_getProjectQuestions | apply Total_generateResponse].
Qed.

(** The session manager. *)
Lemma addMessage_unknown sid c s w :
  sessions w !! sid = None -> addMessage env sid c s w = (Ok None, w).
Proof. intros H. unfold addMessage, bind, getSession. by rewrite H. Qed.

Lemma addMessage_known sid c s w session :
  sessions w !! sid = Some session ->
  addMessage env sid c s w = (Ok (Some (messageOf env s c w)), appended env sid s c w).
Proof.
  intros H. unfold addMessage, bind, getSession, appended. by rewrite H.
Qed.

Lemma appended_lookup sid c s w session :
  sessions w !! sid = Some session ->
  sessions (appended env sid s c w) !! sid
  = Some (withMessage (messageOf env s c w) session).
Proof. intros H. unfold appended. rewrite H. simpl. apply lookup_insert_eq. Qed.

Lemma appended_trace sid c s w : trace (appended env sid s c w) = trace w.
Proof. unfold appended. by destruct (sessions w !! sid). Qed.

End Facts.

(** ** The question list *)

Lemma append_assoc (a b c : string) : (a +:+ b) +:+ c = a +:+ b +:+ c.
Proof.
  induction a as [|x a IH]; [reflexivity |].
  change (String x ((a +:+ b) +:+ c) = String x (a +:+ b +:+ c)). by rewrite IH.
Qed.

(** The lines of the list, numbered from [k], as the code builds them. *)
Lemma numbered_lines_cons k q (qs : list Question) :
  imap (fun i x => showNat (k + i) +:+ ". " +:+ question_text x) (q :: qs)
  = (showNat k +:+ ". " +:+ question_text q)
    :: imap (fun i x => showNat (S k + i) +:+ ". " +:+ question_text x) qs.
Proof.
  simpl. rewrite Nat.add_0_r. f_equal. apply imap_ext. intros i x _. simpl.
  by replace (k + S i)%nat with (S (k + i)) by lia.
Qed.

(** C8. [formatQuestionsList] gives the fixed sentence for an empty list.
    Otherwise it gives the header line followed by the text of the list
    numbered from 1, where the text of a list numbered from [k] is, for one
    question, the decimal numeral of [k], a dot, a space and the text of the
    question, and for more questions that line, a line break and the text of
    the rest numbered from [k + 1]. So the questions come in their order, one
    per line, numbered 1, 2, 3 and so on. The samples of the specification
    are instances, and an eleventh question is numbered 11. *)
Theorem formatQuestionsList_spec :
  formatQuestionsList [] = "論点はまだ設定されていません。" /\
  (exists listFrom : nat -> list Question -> string,
      (forall k q,
          listFrom k [q]
          = NilEmpty.string_of_uint (Nat.to_uint k) +:+ ". " +:+ question_text q) /\
      (forall k q q' qs,
          listFrom k (q :: q' :: qs)
          = NilEmpty.string_of_uint (Nat.to_uint k) +:+ ". " +:+ question_text q
            +:+ String "010" (listFrom (S k) (q' :: qs))) /\
      (forall q qs,
          formatQuestionsList (q :: qs)
          = "論点一覧:" +:+ String "010" (listFrom 1 (q :: qs)))) /\
  (forall id, formatQuestionsList [ {| question_id := id; question_text := "Should X?" |} ]
              = "論点一覧:
1. Should X?") /\
  (forall id1 id2,
      formatQuestionsList [ {| question_id := id1; question_text := "Q1" |};
                            {| question_id := id2; question_text := "Q2" |} ]
      = "論点一覧:
1. Q1
2. Q2") /\
  (forall id,
      formatQuestionsList (replicate 11 {| question_id := id; question_text := "q" |})
      = "論点一覧:
1. q
2. q
3. q
4. q
5. q
6. q
7. q
8. q
9. q
10. q
11. q").
Proof.
  split; [reflexivity | split; [| split; [| split]]].
  - exists (fun k qs =>
              join nl (imap (fun i x => showNat (k + i) +:+ ". " +:+ question_text x) qs)).
    split; [| split].
    + intros k q. rewrite numbered_lines_cons. reflexivity.
    + intros k q q' qs. rewrite numbered_lines_cons.
      destruct (imap (fun i x => showNat (S k + i) +:+ ". " +:+ question_text x) (q' :: qs))
        as [|l ls] eqn:E; [discriminate |].
      change (join nl ((showNat k +:+ ". " +:+ question_text q) :: l :: ls))
        with ((showNat k +:+ ". " +:+ question_text q) +:+ nl +:+ join nl (l :: ls)).
      rewrite !append_assoc. reflexivity.
    + intros q qs. unfold formatQuestionsList. simpl Nat.eqb. cbv iota.
      change ("論点一覧:" +:+ String "010" ?x) with ("論点一覧:" +:+ nl +:+ x).
      do 3 f_equal. apply imap_ext. intros i x _. unfold numbered. simpl.
      by rewrite Nat.add_comm.
  - intros id. reflexivity.
  - intros id1 id2. reflexivity.
  - intros id. reflexivity.
Qed.

(** ** The primary question *)

Lemma Qgtb_true a b : Qgtb a b = true -> (b < a)%Q.
Proof.
  unfold Qgtb. intros H. apply Qnot_le_lt. intros Hle.
  apply Qle_bool_iff in Hle. rewrite Hle in H. discriminate.
Qed.

Lemma Qgtb_false a b : Qgtb a b = false -> (a <= b)%Q.
Proof.
  unfold Qgtb. intros H. apply Qle_bool_iff.
  destruct (Qle_bool a b); [reflexivity | discriminate].
Qed.

(** Scanning with [moreConfident] ends on the first entry of greatest
    confidence. *)
Lemma fold_moreConfident xs : forall x,
  exists i, (x :: xs) !! i = Some (fold_left moreConfident xs x) /\
    (forall j y, (x :: xs) !! j = Some y ->
                 (conf y <= conf (fold_left moreConfident xs x))%Q) /\
    (forall j y, (x :: xs) !! j = Some y -> (j < i)%nat ->
                 (conf y < conf (fold_left moreConfident xs x))%Q).
Proof.
  induction xs as [|z xs IH] using rev_ind; intros x.
  - exists 0%nat. simpl. split; [reflexivity | split].
    + intros [|j] y Hy; simpl in Hy; [|by rewrite lookup_nil in Hy].
      injection Hy as <-. apply Qle_refl.
    + intros j y _ Hj. lia.
  - rewrite fold_left_app. simpl.
    destruct (IH x) as (i & Hi & Hmax & Hfirst).
    set (q := fold_left moreConfident xs x) in *.
    assert (Hsplit : forall j y, (x :: xs ++ [z]) !! j = Some y ->
              ((x :: xs) !! j = Some y /\ (j < length (x :: xs))%nat)
              \/ (y = z /\ j = length (x :: xs))).
    { intros j y Hy. change (x :: xs ++ [z]) with ((x :: xs) ++ [z]) in Hy.
      apply lookup_app_Some in Hy as [Hy | [Hge Hy]].
      - left. split; [done | by eapply lookup_lt_Some].
      - right. apply list_lookup_singleton_Some in Hy as [Hz ->]. split; [done | lia]. }
    assert (Hm : moreConfident q z = if Qgtb (conf z) (conf q) then z else q)
      by reflexivity.
    rewrite Hm. clear Hm.
    destruct (Qgtb (conf z) (conf q)) eqn:E.
    + apply Qgtb_true in E. exists (length (x :: xs)). split; [|split].
      * change (x :: xs ++ [z]) with ((x :: xs) ++ [z]).
        rewrite lookup_app_r by lia. by rewrite Nat.sub_diag.
      * intros j y Hy. destruct (Hsplit j y Hy) as [[Hy' _] | [-> _]].
        -- apply Qlt_le_weak. eapply Qle_lt_trans; [by eapply Hmax | done].
        -- apply Qle_refl.
      * intros j y Hy Hj. destruct (Hsplit j y Hy) as [[Hy' _] | [_ ->]]; [|lia].
        eapply Qle_lt_trans; [by eapply Hmax | done].
    + apply Qgtb_false in E. exists i. split; [|split].
      * change (x :: xs ++ [z]) with ((x :: xs) ++ [z]).
        rewrite lookup_app_l; [done | by eapply lookup_lt_Some].
      * intros j y Hy. destruct (Hsplit j y Hy) as [[Hy' _] | [-> _]]; [by eapply Hmax | done].
      * intros j y Hy Hj. destruct (Hsplit j y Hy) as [[Hy' _] | [_ ->]]; [by eapply Hfirst |].
        apply lookup_lt_Some in Hi. lia.
Qed.

(** C3. On a non-empty list of related questions the scan of
    [generateResponse] selects the entry of greatest confidence, and among
    tied entries the first in list order: every entry is at most as confident
    as the selected one and every entry before it is strictly less confident.
    The stance analysis that is fetched next is the one of that entry. *)
Theorem primaryQuestion_first_maximum env p (l : list RelatedQuestion) :
  l <> [] ->
  exists i q,
    reduce moreConfident l = Ok q /\ l !! i = Some q /\
    (forall j x, l !! j = Some x -> (conf x <= conf q)%Q) /\
    (forall j x, l !! j = Some x -> (j < i)%nat -> (conf x < conf q)%Q) /\
    (forall c w,
        trace (resolveContext env p {| commentId := c; relatedQuestions := Some l |} w).2
        = trace w ++ [EvBackendGet (stanceAnalysisPath p (rq_id q))]).
Proof.
  destruct l as [|x xs]; [done | intros _].
  destruct (fold_moreConfident xs x) as (i & Hi & Hmax & Hfirst).
  exists i, (fold_left moreConfident xs x).
  split; [reflexivity | split; [done | split; [done | split; [done |]]]].
  intros c w. unfold resolveContext, bind, lift, try_catch, call, ret. simpl.
  by destruct (backend_getReport env (trace w) _).
Qed.

Lemma primaryQuestion_first_maximum_witness :
  let env := sampleEnv (Ok (Ok "hello")) true in
  sampleRelated <> [] /\
  exists i q,
    reduce moreConfident sampleRelated = Ok q /\ sampleRelated !! i = Some q /\
    (forall j x, sampleRelated !! j = Some x -> (conf x <= conf q)%Q) /\
    (forall j x, sampleRelated !! j = Some x -> (j < i)%nat -> (conf x < conf q)%Q) /\
    (forall c w,
        trace (resolveContext env "p1"
                 {| commentId := c; relatedQuestions := Some sampleRelated |} w).2
        = trace w ++ [EvBackendGet (stanceAnalysisPath "p1" (rq_id q))]).
Proof.
  intros env. split; [discriminate |].
  apply (primaryQuestion_first_maximum env "p1" sampleRelated). discriminate.
Defined.

(** The sample of the specification: confidences 0.4, 0.9 and 0.6. *)
Example primaryQuestion_sample a b c :
  conf a = 4 # 10 -> conf b = 9 # 10 -> conf c = 6 # 10 ->
  reduce moreConfident [a; b; c] = Ok b.
Proof.
  intros Ha Hb Hc. unfold reduce, moreConfident. simpl.
  fold (conf a) (conf b) (conf c). rewrite Ha, Hb. simpl.
  fold (conf b). rewrite Hb, Hc. reflexivity.
Qed.

(** ** The history given to the model *)


Lemma sliceLast_length {A} n (l : list A) : (length (sliceLast n l) <= n)%nat.
Proof. unfold sliceLast. rewrite length_drop. lia. Qed.

Lemma sliceLast_suffix {A} n (l : list A) : exists older, l = older ++ sliceLast n l.
Proof. exists (take (length l - n) l). unfold sliceLast. by rewrite take_drop. Qed.

Lemma sliceLast_short {A} n (l : list A) : (length l <= n)%nat -> sliceLast n l = l.
Proof. intros H. unfold sliceLast. by replace (length l - n)%nat with 0%nat by lia. Qed.

Lemma sliceLast_app {A} (older recent : list A) :
  sliceLast (length recent) (older ++ recent) = recent.
Proof.
  unfold sliceLast. rewrite length_app.
  replace (length older + length recent - length recent)%nat with (length older) by lia.
  by rewrite drop_app_length.
Qed.

Section Pipeline.

Variable env : Env.

(** Parsing and validating touch nothing. *)
Lemma parseExtraction_pure t : exists x, forall w, parseExtraction env t w = (Ok x, w).
Proof.
  unfold parseExtraction, try_catch, bind, lift, ret, throw.
  destruct (JSON_parse env t) as [v|e]; [|by eexists].
  destruct (getProp v "hasContent") as [[[| [] | | | |]|]|e]; try by eexists.
  destruct (getProp v "content") as [[[| | | c | |]|]|e]; by eexists.
Qed.

(** A run of [analyzeUserMessage]: one request to the model, then at most
    one comment posted. *)
Lemma analyzeUserMessage_run u p h w :
  exists a evs,
    analyzeUserMessage env u p h w
    = (Ok a, log (EvGenerateContent (extractionRequest u h) :: evs) w) /\
    (evs = [] \/ exists body, evs = [EvBackendPost (commentsPath p) body]).
Proof.
  unfold analyzeUserMessage, try_catch, bind, call, lift, ret.
  destruct (model_generateContent env (trace w) _) as [[text|e]|e];
    [| by eexists _, []; split; [|left] ..].
  destruct (parseExtraction_pure (trim text)) as [x Hx]. rewrite Hx.
  destruct x as [[|c]|early]; [by eexists _, []; split; [|left] | | by eexists _, []; split; [|left]].
  simpl. destruct (backend_postComment env _ _ _) as [r|e];
    (eexists _, [_]; split; [by rewrite log_log | right; by eexists]).
Qed.

(** A run of the block that computes [contextualInfo]: it never throws and
    makes at most one call, for the stance analysis. *)
Lemma resolveContext_run p a w :
  exists ctx evs, resolveContext env p a w = (Ok ctx, log evs w) /\
    (evs = [] \/ exists path, evs = [EvBackendGet path]).
Proof.
  unfold resolveContext. destruct (relatedQuestions a) as [[|x xs]|].
  - exists "", []. rewrite log_nil. by split; [|left].
  - unfold bind, lift, reduce, try_catch, call, ret.
    destruct (backend_getReport env (trace w) _);
      (eexists _, [_]; split; [reflexivity | right; by eexists]).
  - exists "", []. rewrite log_nil. by split; [|left].
Qed.

(** A run of [getProjectQuestions]: one call, and the empty list when it
    throws or the project has no [questions]. *)
Lemma getProjectQuestions_run p w :
  getProjectQuestions env p w
  = (Ok match backend_getProject env (trace w) (projectPath p) with
        | Ok project => default [] (project_questions project)
        | Throw _ => []
        end,
     log [EvBackendGet (projectPath p)] w).
Proof.
  unfold getProjectQuestions, try_catch, bind, call, ret.
  by destruct (backend_getProject env (trace w) (projectPath p)).
Qed.

End Pipeline.

Section Generation.

Variable env : Env.

(** A run of [generateResponse]: the analysis, the context, then one
    request to the model, whose text is the reply unless the call or the
    reading of its text throws. Two requests go to the model and no frame
    is sent. *)
Lemma generateResponse_run u p qs h w :
  exists a evs1 ctx evs2,
    analyzeUserMessage env u p h w = (Ok a, log evs1 w) /\
    resolveContext env p a (log evs1 w) = (Ok ctx, log evs2 (log evs1 w)) /\
    generateResponse env u p qs h w
    = (Ok match model_generateContent env (trace (log evs2 (log evs1 w)))
                  (generationRequest u qs ctx h) with
          | Ok (Ok text) => text
          | _ => apology
          end,
       log [EvGenerateContent (generationRequest u qs ctx h)] (log evs2 (log evs1 w))) /\
    requests (evs1 ++ evs2 ++ [EvGenerateContent (generationRequest u qs ctx h)])
    = [extractionRequest u h; generationRequest u qs ctx h] /\
    frames (evs1 ++ evs2 ++ [EvGenerateContent (generationRequest u qs ctx h)]) = [].
Proof.
  destruct (analyzeUserMessage_run env u p h w) as (a & evs & Ha & Hevs).
  destruct (resolveContext_run env p a
              (log (EvGenerateContent (extractionRequest u h) :: evs) w))
    as (ctx & evs2 & Hc & Hevs2).
  exists a, (EvGenerateContent (extractionRequest u h) :: evs), ctx, evs2.
  split; [done | split; [done | split; [| split]]].
  - unfold generateResponse, generateBody, try_catch.
    rewrite (bind_ok _ _ _ _ _ Ha), (bind_ok _ _ _ _ _ Hc).
    unfold bind, call, lift, ret.
    by destruct (model_generateContent env _ _) as [[text|e]|e].
  - destruct Hevs as [-> | [body ->]], Hevs2 as [-> | [path ->]]; reflexivity.
  - destruct Hevs as [-> | [body ->]], Hevs2 as [-> | [path ->]]; reflexivity.
Qed.

End Generation.

Lemma join_app sep a (l1 : list string) b l2 :
  join sep ((a :: l1) ++ b :: l2) = join sep (a :: l1) +:+ sep +:+ join sep (b :: l2).
Proof.
  revert a. induction l1 as [|c l1 IH]; intros a; [reflexivity |].
  change (join sep ((a :: c :: l1) ++ b :: l2))
    with (a +:+ sep +:+ join sep ((c :: l1) ++ b :: l2)).
  change (join sep (a :: c :: l1)) with (a +:+ sep +:+ join sep (c :: l1)).
  by rewrite IH, !append_assoc.
Qed.

(** C7. Whatever the length of the history, the model sees at most its
    last five entries. [slice(-5)] gives the end of the history, five entries
    long or the whole history when it is shorter. The extraction prompt is a
    text fixed before the history, the lines of those entries, and a text
    that does not depend on the history; the lines of no entry are the empty
    text, the line of one entry is its label ("ユーザー" for the user,
    "アシスタント" for the bot), a colon, a space and its content, and the
    lines of two runs of entries are their lines with one line break between.
    The generation conversation is an instruction turn that does not depend
    on the history, one turn per entry kept (role [user] for a user message,
    [model] for a bot message, the content as text) and the turn of the user
    message. These are the two requests [generateResponse] makes. Of six
    entries the first is left out. *)
Theorem history_capped_at_five :
  (forall h : list ChatMessage,
      exists older, h = older ++ sliceLast 5 h /\
                    length (sliceLast 5 h) = Nat.min 5 (length h)) /\
  (exists (pre : string) (lines : list ChatMessage -> string),
      lines [] = "" /\
      (forall m, lines [m]
                 = match msg_sender m with user => "ユーザー" | bot => "アシスタント" end
                   +:+ ": " +:+ msg_content m) /\
      (forall a h1 b h2,
          lines ((a :: h1) ++ b :: h2)
          = lines (a :: h1) +:+ String "010" (lines (b :: h2))) /\
      forall u, exists post, forall h,
          extractionPrompt u h = pre +:+ lines (sliceLast 5 h) +:+ post) /\
  (forall u qs ctx, exists instruction, forall h,
      contents (generationRequest u qs ctx h)
      = [ {| role := "user"; parts := [instruction] |} ]
        ++ map (fun m => {| role := match msg_sender m with user => "user" | bot => "model" end;
                            parts := [msg_content m] |}) (sliceLast 5 h)
        ++ [ {| role := "user"; parts := [u] |} ]) /\
  (forall env u p qs h w, exists evs ctx,
      trace (generateResponse env u p qs h w).2 = trace w ++ evs /\
      requests evs = [extractionRequest u h; generationRequest u qs ctx h] /\
      contents (extractionRequest u h)
      = [ {| role := "user"; parts := [extractionPrompt u h] |} ]) /\
  (forall say : Sender -> string -> ChatMessage,
      (forall s c, msg_sender (say s c) = s /\ msg_content (say s c) = c) ->
      let h := [say user "one"; say bot "two"; say user "three";
                say bot "four"; say user "five"; say bot "six"] in
      formatChatHistory (sliceLast 5 h)
      = "アシスタント: two
ユーザー: three
アシスタント: four
ユーザー: five
アシスタント: six" /\
      map (fun c => (role c, parts c)) (map historyTurn (sliceLast 5 h))
      = [("model", ["two"]); ("user", ["three"]); ("model", ["four"]);
         ("user", ["five"]); ("model", ["six"])]).
Proof.
  split; [| split; [| split; [| split]]].
  - intros h. destruct (sliceLast_suffix 5 h) as [older Hh]. exists older.
    split; [exact Hh |]. unfold sliceLast. rewrite length_drop. lia.
  - eexists. exists formatChatHistory.
    split; [reflexivity | split; [| split]].
    + intros m. unfold formatChatHistory, historyLine, roleLabel. simpl.
      by destruct (msg_sender m).
    + intros a h1 b h2. unfold formatChatHistory. rewrite map_app. simpl map.
      apply join_app.
    + intros u. eexists. intros h. unfold extractionPrompt.
      rewrite <- (append_assoc nl). reflexivity.
  - intros u qs ctx. eexists. intros h. reflexivity.
  - intros env u p qs h w.
    destruct (generateResponse_run env u p qs h w)
      as (a & evs1 & ctx & evs2 & _ & _ & -> & Hreq & _).
    exists (evs1 ++ evs2 ++ [EvGenerateContent (generationRequest u qs ctx h)]), ctx.
    split; [| split; [done | reflexivity]].
    simpl. by rewrite <- !app_assoc.
  - intros say Hsay h. unfold h, sliceLast. simpl drop.
    unfold formatChatHistory, historyLine, historyTurn, roleLabel. simpl map.
    rewrite !(proj1 (Hsay _ _)), !(proj2 (Hsay _ _)). split; reflexivity.
Qed.

Lemma history_capped_at_five_witness :
  let say s c := {| msg_id := "m"; msg_sender := s; msg_content := c; msg_timestamp := 0 |} in
  let h := [say user "one"; say bot "two"; say user "three";
            say bot "four"; say user "five"; say bot "six"] in
  formatChatHistory (sliceLast 5 h)
  = "アシスタント: two
ユーザー: three
アシスタント: four
ユーザー: five
アシスタント: six" /\
  map (fun c => (role c, parts c)) (map historyTurn (sliceLast 5 h))
  = [("model", ["two"]); ("user", ["three"]); ("model", ["four"]);
     ("user", ["five"]); ("model", ["six"])].
Proof.
  intros say h.
  refine (proj2 (proj2 (proj2 (proj2 history_capped_at_five))) say _).
  intros s c. split; reflexivity.
Defined.

(** ** The claim extraction *)

Lemma getProp_member v k :
  getProp v k = Ok (member v k) \/ (v = JNull /\ exists e, getProp v k = Throw e).
Proof. destruct v; simpl; eauto. Qed.

Lemma parseExtraction_malformed env t w :
  Malformed env t -> parseExtraction env t w = (Ok (inr emptyAnalysis), w).
Proof.
  intros HM. unfold parseExtraction, try_catch, bind, lift, ret, throw.
  destruct HM as [e He | v Hv Hb | v Hv Hb Hc]; rewrite ?He, ?Hv.
  - reflexivity.
  - destruct (getProp_member v "hasContent") as [-> | [_ [e ->]]]; [|reflexivity].
    destruct (member v "hasContent") as [[| b | | | |]|]; try reflexivity.
    by destruct (Hb b).
  - destruct (getProp_member v "hasContent") as [-> | [-> _]]; [|discriminate].
    rewrite Hb.
    destruct (getProp_member v "content") as [-> | [-> _]]; [|discriminate].
    destruct (member v "content") as [[| | | c | |]|]; try reflexivity.
    by destruct (Hc c).
Qed.

Lemma parseExtraction_claim env t w v c :
  JSON_parse env t = Ok v ->
  member v "hasContent" = Some (JBool true) ->
  member v "content" = Some (JString c) ->
  parseExtraction env t w = (Ok (inl (HasContent c)), w).
Proof.
  intros Hv Hb Hc. unfold parseExtraction, try_catch, bind, lift, ret, throw.
  rewrite Hv.
  destruct (getProp_member v "hasContent") as [-> | [-> _]]; [|discriminate].
  rewrite Hb.
  destruct (getProp_member v "content") as [-> | [-> _]]; [|discriminate].
  by rewrite Hc.
Qed.

(** C2 as stated fails: the response text made of U+3000 and a claim in
    JSON is not valid JSON, since U+3000 is no white space of JSON, yet the
    code trims it away before parsing, posts the comment and returns its id
    and the related question. *)
Lemma untrimmed_text_is_posted :
  let text := "　" +:+ claimText in
  let env := sampleEnv (Ok (Ok text)) true in
  let u := "I think X is needed" in
  let run := analyzeUserMessage env u "p1" [] sampleWorld in
  model_generateContent env (trace sampleWorld) (extractionRequest u []) = Ok (Ok text) /\
  JSON_parse env text = Throw (Error "Unexpected token") /\
  Malformed env text /\
  run.1 = Ok {| commentId := Some "c1";
                relatedQuestions := Some [sampleRelatedQuestion] |} /\
  posts (trace run.2)
  = [("/projects/p1/comments",
      {| cb_content := "X is needed"; cb_sourceType := "other" |})].
Proof.
  intros text env u run.
  split; [reflexivity | split; [reflexivity | split; [| split; reflexivity]]].
  by apply NotJSON with (e := Error "Unexpected token").
Qed.

(** C2, amended. When the response text of the claim extraction, once
    trimmed (the text the code parses), is not JSON, or its [hasContent] is
    missing or not a boolean, or [hasContent] is true and [content] is not a
    string, [analyzeUserMessage] returns the empty result, and the request to
    the model is the only call it makes: nothing is posted to the backend. In
    every case [analyzeUserMessage] returns a value; it never throws. *)
Theorem extraction_degrades env u p h w text :
  model_generateContent env (trace w) (extractionRequest u h) = Ok (Ok text) ->
  Malformed env (trim text) ->
  analyzeUserMessage env u p h w
  = (Ok {| commentId := None; relatedQuestions := None |},
     log [EvGenerateContent (extractionRequest u h)] w) /\
  posts [EvGenerateContent (extractionRequest u h)] = [] /\
  Total (analyzeUserMessage env u p h).
Proof.
  intros Hmodel HM. split; [| split; [reflexivity | apply Total_analyzeUserMessage]].
  unfold analyzeUserMessage, try_catch, bind, call, lift. rewrite Hmodel.
  by rewrite (parseExtraction_malformed _ _ _ HM).
Qed.

Lemma extraction_degrades_witness :
  let env := sampleEnv (Ok (Ok "  I think so.  ")) true in
  analyzeUserMessage env "I think so" "p1" [] sampleWorld
  = (Ok {| commentId := None; relatedQuestions := None |},
     log [EvGenerateContent (extractionRequest "I think so" [])] sampleWorld) /\
  posts [EvGenerateContent (extractionRequest "I think so" [])] = [] /\
  Total (analyzeUserMessage env "I think so" "p1" []).
Proof.
  apply (extraction_degrades (sampleEnv (Ok (Ok "  I think so.  ")) true)
           "I think so" "p1" [] sampleWorld "  I think so.  ").
  - reflexivity.
  - apply NotJSON with (e := Error "Unexpected token"). vm_compute. reflexivity.
Defined.

(** ** The submission *)

Lemma omap_firstStance qs : omap firstStance qs = contributions qs.
Proof.
  induction qs as [|q qs IH]; [reflexivity |].
  simpl contributions. rewrite <- IH. unfold firstStance. simpl.
  by destruct (aq_stances q).
Qed.

(** C5. When a claim was extracted, the comment is posted; from the
    response every analysed question contributes its first stance entry and
    a question without stance entries is dropped; when the post throws (no
    answer, or a status outside 2xx) the result is the empty one and nothing
    is thrown. *)
Theorem submission_stage env u p h w text v c :
  model_generateContent env (trace w) (extractionRequest u h) = Ok (Ok text) ->
  JSON_parse env (trim text) = Ok v ->
  member v "hasContent" = Some (JBool true) ->
  member v "content" = Some (JString c) ->
  let body := {| cb_content := c; cb_sourceType := "other" |} in
  let w1 := log [EvGenerateContent (extractionRequest u h)] w in
  let w2 := log [EvBackendPost (commentsPath p) body] w1 in
  analyzeUserMessage env u p h w
  = match backend_postComment env (trace w1) (commentsPath p) body with
    | Ok r =>
        (Ok {| commentId := Some (comment_id r);
               relatedQuestions := match contributions (analyzedQuestions r) with
                                   | [] => None
                                   | related => Some related
                                   end |}, w2)
    | Throw _ => (Ok {| commentId := None; relatedQuestions := None |}, w2)
    end.
Proof.
  intros Hmodel Hv Hb Hc body w1 w2.
  unfold analyzeUserMessage, try_catch, bind, call, lift. rewrite Hmodel.
  rewrite (parseExtraction_claim _ _ _ _ _ Hv Hb Hc). fold body. fold w1.
  destruct (backend_postComment env (trace w1) (commentsPath p) body) as [r|e];
    [| reflexivity].
  unfold ret, relatedOf. rewrite omap_firstStance.
  by destruct (contributions (analyzedQuestions r)).
Qed.

Lemma submission_stage_witness :
  let env := sampleEnv (Ok (Ok (claimText +:+ nl))) true in
  let body := {| cb_content := "X is needed"; cb_sourceType := "other" |} in
  analyzeUserMessage env "I think X is needed" "p1" [] sampleWorld
  = (Ok {| commentId := Some "c1";
           relatedQuestions :=
             Some [ {| rq_id := "q1"; rq_text := "Should X?";
                       rq_stance := {| stanceId := "pro"; confidence := 9 # 10 |} |} ] |},
     log [EvBackendPost "/projects/p1/comments" body]
         (log [EvGenerateContent (extractionRequest "I think X is needed" [])] sampleWorld)).
Proof.
  intros env body.
  exact (submission_stage env "I think X is needed" "p1" [] sampleWorld
           (claimText +:+ nl)
           (JObject [("hasContent", JBool true); ("content", JString "X is needed")])
           "X is needed" eq_refl eq_refl eq_refl eq_refl).
Defined.

(** ** One turn of the handler *)

Section Turn.

Variable env : Env.

(** A turn on a known session: the user message is stored, the reply is
    computed by one of the two branches, stored, and sent. *)
Lemma onMessage_known sid pid data msg w s response evs :
  decodeFrame env data = Ok msg ->
  wsm_type msg = "message" ->
  sessions w !! sid = Some s ->
  let w1 := appended env sid user (wsm_content msg) w in
  let history := session_history s ++ [messageOf env user (wsm_content msg) w] in
  (if String.eqb (toLowerCase (wsm_content msg)) "questions"
   then questionsCommand env pid
   else fullPipeline env (wsm_content msg) pid history) w1 = (Ok response, log evs w1) ->
  onMessage env sid pid data w = (Ok tt, delivered env sid response (log evs w1)).
Proof.
  intros Hd Ht Hs w1 history Hbranch.
  assert (Hs1 : sessions w1 !! sid
                = Some (withMessage (messageOf env user (wsm_content msg) w) s))
    by (by apply appended_lookup).
  unfold onMessage. apply try_ok.
  rewrite (bind_ok _ _ w msg w) by (unfold lift; by rewrite Hd).
  rewrite Ht, String.eqb_refl.
  rewrite (bind_ok _ _ _ _ _ (addMessage_known env sid _ user w s Hs)).
  fold w1.
  rewrite (bind_ok _ _ w1 (Some (withMessage (messageOf env user (wsm_content msg) w) s)) w1)
    by (unfold getSession; by rewrite Hs1).
  change (session_history (withMessage (messageOf env user (wsm_content msg) w) s))
    with history.
  rewrite (bind_ok _ _ _ _ _ Hbranch).
  rewrite (bind_ok _ _ _ _ _ (addMessage_known env sid response bot (log evs w1) _ Hs1)).
  reflexivity.
Qed.

End Turn.

(** C6. For a "message" frame whose session the store does not know,
    [addMessage] returns nothing and the turn answers with the single frame
    [{error: "Session not found"}]: that send is the only call of the turn,
    so nothing is analysed or generated, no message is stored, and the socket
    and its listeners stay as they were. *)
Theorem unknown_session_guard env sid pid data msg w :
  decodeFrame env data = Ok msg ->
  wsm_type msg = "message" ->
  sessions w !! sid = None ->
  addMessage env sid (wsm_content msg) user w = (Ok None, w) /\
  onMessage env sid pid data w
  = (Ok tt, log [EvWsSend (ErrorFrame "Session not found")] w) /\
  sessions (log [EvWsSend (ErrorFrame "Session not found")] w) = sessions w /\
  listeners (log [EvWsSend (ErrorFrame "Session not found")] w) = listeners w.
Proof.
  intros Hd Ht Hs.
  pose proof (addMessage_unknown env sid (wsm_content msg) user w Hs) as Ha.
  split; [exact Ha | split; [| by split]].
  unfold onMessage. apply try_ok.
  rewrite (bind_ok _ _ w msg w) by (unfold lift; by rewrite Hd).
  rewrite Ht, String.eqb_refl.
  by rewrite (bind_ok _ _ _ _ _ Ha).
Qed.

Lemma unknown_session_guard_witness :
  let env := sampleEnv (Ok (Ok "hello")) true in
  let w := {| sessions := ∅; draws := 0; listeners := [("s1", "p1")]; trace := [] |} in
  addMessage env "s1" "questions" user w = (Ok None, w) /\
  onMessage env "s1" "p1" (frameText "questions") w
  = (Ok tt, log [EvWsSend (ErrorFrame "Session not found")] w) /\
  sessions (log [EvWsSend (ErrorFrame "Session not found")] w) = sessions w /\
  listeners (log [EvWsSend (ErrorFrame "Session not found")] w) = listeners w.
Proof.
  intros env w.
  exact (unknown_session_guard env "s1" "p1" (frameText "questions")
           {| wsm_type := "message"; wsm_content := "questions" |} w
           eq_refl eq_refl eq_refl).
Defined.

(** ** The command shortcut *)

(** C1 as stated fails: the content " questions" equals the token once
    trimmed and lower-cased, and the turn still runs the analysis and the
    generation (two requests go to the model) and replies with the text of the
    model, not with the question list. *)
Lemma command_is_not_trimmed :
  let env := sampleEnv (Ok (Ok "hello")) true in
  let content := " questions" in
  let turn := onMessage env "s1" "p1" (frameText content) sampleWorld in
  decodeFrame env (frameText content) = Ok {| wsm_type := "message"; wsm_content := content |} /\
  sessions sampleWorld !! "s1" = Some sampleSession /\
  toLowerCase (trim content) = "questions" /\
  length (requests (trace turn.2)) = 2%nat /\
  frames (trace turn.2)
  = [MessageFrame (Some {| msg_id := "id-1"; msg_sender := bot;
                           msg_content := "hello"; msg_timestamp := 1 |})] /\
  "hello" <> formatQuestionsList [sampleQuestion].
Proof.
  vm_compute. repeat split; discriminate.
Qed.

(** C1, amended. On a "message" frame with a text content, for a known
    session, the content is lower-cased, not trimmed, and compared with
    "questions". When they are
    equal the reply is the formatted list of the questions of the project and
    the turn asks the model nothing and posts no comment; otherwise the reply
    is the result of [generateResponse] on the content, the questions and the
    history, whose two requests go to the model. *)
Theorem command_shortcut env sid pid data msg w s :
  decodeFrame env data = Ok msg ->
  wsm_type msg = "message" ->
  sessions w !! sid = Some s ->
  let content := wsm_content msg in
  let history := session_history s ++ [messageOf env user content w] in
  let w1 := log [EvBackendGet (projectPath pid)] (appended env sid user content w) in
  exists questions,
    getProjectQuestions env pid (appended env sid user content w) = (Ok questions, w1) /\
    (toLowerCase content = "questions" ->
       onMessage env sid pid data w
       = (Ok tt, delivered env sid (formatQuestionsList questions) w1) /\
       requests [EvBackendGet (projectPath pid)] = [] /\
       posts [EvBackendGet (projectPath pid)] = []) /\
    (toLowerCase content <> "questions" ->
       exists reply evs ctx,
         generateResponse env content pid questions history w1 = (Ok reply, log evs w1) /\
         onMessage env sid pid data w = (Ok tt, delivered env sid reply (log evs w1)) /\
         requests evs = [extractionRequest content history;
                         generationRequest content questions ctx history]).
Proof.
  intros Hd Ht Hs content history w1.
  pose proof (getProjectQuestions_run env pid (appended env sid user content w)) as Hq.
  eexists. split; [exact Hq |]. fold w1 in Hq. split.
  - intros Hc. split; [| by split].
    unfold w1. apply (onMessage_known env sid pid data msg w s); try done.
    fold content. rewrite Hc. simpl.
    unfold questionsCommand. by rewrite (bind_ok _ _ _ _ _ Hq).
  - intros Hc.
    match type of Hq with _ = (Ok ?qs, _) => set (questions := qs) in * end.
    destruct (generateResponse_run env content pid questions history w1)
      as (a & evs1 & ctx & evs2 & _ & _ & Hg & Hreq & _).
    rewrite !log_log, <- (app_assoc evs1 evs2 [_]) in Hg.
    eexists _, _, ctx. split; [exact Hg | split; [| exact Hreq]].
    unfold w1 at 2. rewrite log_log.
    apply (onMessage_known env sid pid data msg w s); try done.
    fold content. apply String.eqb_neq in Hc. rewrite Hc.
    unfold fullPipeline. rewrite (bind_ok _ _ _ _ _ Hq).
    fold history. rewrite Hg. unfold w1. rewrite !log_log. reflexivity.
Qed.

Lemma command_shortcut_witness :
  let env := sampleEnv (Ok (Ok "hello")) true in
  let content := "questions" in
  let data := frameText content in
  let history := [messageOf env user content sampleWorld] in
  let w1 := log [EvBackendGet (projectPath "p1")]
                (appended env "s1" user content sampleWorld) in
  exists questions,
    getProjectQuestions env "p1" (appended env "s1" user content sampleWorld)
    = (Ok questions, w1) /\
    (toLowerCase content = "questions" ->
       onMessage env "s1" "p1" data sampleWorld
       = (Ok tt, delivered env "s1" (formatQuestionsList questions) w1) /\
       requests [EvBackendGet (projectPath "p1")] = [] /\
       posts [EvBackendGet (projectPath "p1")] = []) /\
    (toLowerCase content <> "questions" ->
       exists reply evs ctx,
         generateResponse env content "p1" questions history w1 = (Ok reply, log evs w1) /\
         onMessage env "s1" "p1" data sampleWorld
         = (Ok tt, delivered env "s1" reply (log evs w1)) /\
         requests evs = [extractionRequest content history;
                         generationRequest content questions ctx history]).
Proof.
  intros env content data history w1.
  exact (command_shortcut env "s1" "p1" data
           {| wsm_type := "message"; wsm_content := content |}
           sampleWorld sampleSession eq_refl eq_refl eq_refl).
Defined.

(** ** Failures of the generation *)



(** ** A backend that does not answer *)




(** ** The upgrade router *)

Lemma append_cons a s t : String a s +:+ t = String a (s +:+ t).
Proof. reflexivity. Qed.

Lemma stripPrefix_spec p : forall s r, stripPrefix p s = Some r <-> s = p +:+ r.
Proof.
  induction p as [|a p IH]; intros s r.
  - simpl. split; [by intros [= ->] | by intros ->].
  - rewrite append_cons. destruct s as [|b s]; simpl; [split; discriminate |].
    destruct (Ascii.eqb a b) eqn:E.
    + apply Ascii.eqb_eq in E as ->. rewrite IH. split; [by intros -> | by intros [= ->]].
    + apply Ascii.eqb_neq in E. split; [discriminate | by intros [= -> _]].
Qed.

Lemma spanNot_sound c : forall s h t,
  spanNot c s = (h, t) ->
  s = h +:+ t /\ ~ hasChar c h /\ (t = "" \/ exists t', t = String c t').
Proof.
  induction s as [|a s IH]; intros h t; simpl.
  - intros [= <- <-]. by split; [| split; [intros [] | left]].
  - destruct (Ascii.eqb a c) eqn:E.
    + apply Ascii.eqb_eq in E as ->. intros [= <- <-].
      split; [done | split; [intros [] | right; by eexists]].
    + apply Ascii.eqb_neq in E. destruct (spanNot c s) as [h' t'] eqn:Hs.
      intros [= <- <-]. destruct (IH h' t' eq_refl) as (-> & Hno & Ht).
      split; [done | split; [| done]]. by intros [Ha | Hh].
Qed.

Lemma spanNot_complete c : forall h t,
  ~ hasChar c h -> (t = "" \/ exists t', t = String c t') ->
  spanNot c (h +:+ t) = (h, t).
Proof.
  induction h as [|a h IH]; intros t Hno Ht.
  - change ("" +:+ t) with t. destruct Ht as [-> | [t' ->]]; simpl; [done |].
    by rewrite Ascii.eqb_refl.
  - rewrite append_cons. simpl. simpl in Hno.
    destruct (Ascii.eqb a c) eqn:E.
    + apply Ascii.eqb_eq in E. destruct Hno. by left.
    + rewrite IH; [done | | done]. intros Hh. apply Hno. by right.
Qed.

(** The pattern of the router accepts exactly the paths of the
    specification, and its group is the project id. *)
Lemma matchProjectChat_spec pathname projectId :
  matchProjectChat pathname = Some projectId <-> ChatPath pathname projectId.
Proof.
  unfold matchProjectChat, ChatPath. split.
  - destruct (stripPrefix "/project/" pathname) as [rest|] eqn:Hp; [|discriminate].
    apply stripPrefix_spec in Hp as ->.
    destruct (spanNot "/" rest) as [h t] eqn:Hs.
    apply spanNot_sound in Hs as (-> & Hno & _).
    destruct (String.eqb h "") eqn:Hh; [discriminate |].
    destruct (String.eqb t "/chat") eqn:Ht; [|discriminate].
    intros [= ->]. apply String.eqb_eq in Ht as ->. apply String.eqb_neq in Hh.
    split; [reflexivity | by split].
  - intros (-> & Hne & Hno).
    rewrite (proj2 (stripPrefix_spec "/project/" _ (projectId +:+ "/chat")) eq_refl).
    rewrite (spanNot_complete "/" projectId "/chat" Hno) by (right; by eexists).
    apply String.eqb_neq in Hne. by rewrite Hne.
Qed.

(** C9 as stated fails both ways, the path of a request being its target
    up to the first question mark. The target [/project/p1/chat?token=1] has
    a path of the accepted form and its socket is destroyed; the target
    [/project/p1?x=1/chat] has the path [/project/p1], which is not of that
    form, and it is accepted, for the project id [p1?x=1]. *)
Lemma upgrade_reads_target_not_path :
  let env := sampleEnv (Ok (Ok "hello")) true in
  (requestPath "/project/p1/chat?token=1" = "/project/p1/chat" /\
   ChatPath (requestPath "/project/p1/chat?token=1") "p1" /\
   onUpgrade env (Some "/project/p1/chat?token=1") sampleWorld
   = (Ok tt, log [EvSocketDestroy] sampleWorld)) /\
  (requestPath "/project/p1?x=1/chat" = "/project/p1" /\
   (forall projectId, ~ ChatPath (requestPath "/project/p1?x=1/chat") projectId) /\
   onUpgrade env (Some "/project/p1?x=1/chat") sampleWorld
   = (Ok tt, accepted env "p1?x=1" sampleWorld)).
Proof.
  intros env. split; (split; [reflexivity | split; [| reflexivity]]).
  - apply matchProjectChat_spec. reflexivity.
  - intros projectId H. apply matchProjectChat_spec in H. discriminate.
Qed.

(** C9, amended. An upgrade is accepted exactly when the whole target of
    the request, [request.url] with its query string, has the form
    [/project/{projectId}/chat] with a non-empty [projectId] free of slashes:
    for such a target the request is handed to the WebSocket server and, once
    that server completes the handshake, a new session of that project is
    created and its listeners are installed; for any other target, or none,
    the socket is destroyed, which is the only call made, so nothing is sent
    and no session is created. A session is created for such targets only. *)
Theorem upgrade_routing env url w :
  (forall pathname projectId,
      url = Some pathname -> ChatPath pathname projectId ->
      onUpgrade env url w
      = (Ok tt, if handshake env (trace w) then accepted env projectId w
                else log [EvHandleUpgrade] w)) /\
  ((forall pathname projectId, url = Some pathname -> ~ ChatPath pathname projectId) ->
      onUpgrade env url w = (Ok tt, log [EvSocketDestroy] w)) /\
  (sessions (onUpgrade env url w).2 <> sessions w ->
      exists pathname projectId, url = Some pathname /\ ChatPath pathname projectId).
Proof.
  split; [| split].
  - intros pathname projectId -> Hpath. apply matchProjectChat_spec in Hpath.
    unfold onUpgrade. simpl. rewrite Hpath. unfold bind, call.
    by destruct (handshake env (trace w)).
  - intros Hno. unfold onUpgrade. destruct url as [pathname|]; simpl; [|done].
    destruct (matchProjectChat pathname) as [projectId|] eqn:Hm; [|done].
    apply matchProjectChat_spec in Hm. by destruct (Hno pathname projectId).
  - unfold onUpgrade. destruct url as [pathname|]; simpl; [|done].
    destruct (matchProjectChat pathname) as [projectId|] eqn:Hm; [|done].
    apply matchProjectChat_spec in Hm. intros _. by exists pathname, projectId.
Qed.

Lemma upgrade_routing_witness :
  let env := sampleEnv (Ok (Ok "hello")) true in
  ChatPath "/project/p1/chat" "p1" /\
  onUpgrade env (Some "/project/p1/chat") sampleWorld
  = (Ok tt, accepted env "p1" sampleWorld) /\
  onUpgrade env (Some "/project/p1/chat?x=1") sampleWorld
  = (Ok tt, log [EvSocketDestroy] sampleWorld).
Proof.
  intros env.
  assert (Hpath : ChatPath "/project/p1/chat" "p1")
    by (apply matchProjectChat_spec; reflexivity).
  split; [exact Hpath | split].
  - exact (proj1 (upgrade_routing env (Some "/project/p1/chat") sampleWorld)
             "/project/p1/chat" "p1" eq_refl Hpath).
  - apply (proj1 (proj2 (upgrade_routing env (Some "/project/p1/chat?x=1") sampleWorld))).
    intros pathname projectId [= <-] Hc. apply matchProjectChat_spec in Hc. discriminate.
Defined.

(** ** Samples of the specification *)

Example formatQuestionsList_sample :
  formatQuestionsList [ {| question_id := "a"; question_text := "Q1" |};
                        {| question_id := "b"; question_text := "Q2" |} ]
  = "論点一覧:" +:+ nl +:+ "1. Q1" +:+ nl +:+ "2. Q2".
Proof. reflexivity. Qed.

Example trim_sample : trim ("  " +:+ nl +:+ "ab c　" +:+ nl) = "ab c".
Proof. vm_compute. reflexivity. Qed.

Example matchProjectChat_samples :
  matchProjectChat "/project/abc/chat" = Some "abc" /\
  matchProjectChat "/project//chat" = None /\
  matchProjectChat "/project/a/b/chat" = None /\
  matchProjectChat "/project/abc/chat/" = None /\
  matchProjectChat "/chat" = None.
Proof. repeat split. Qed.

(** Scenario A of the specification. *)
Example scenario_A :
  frames (trace (onMessage (sampleEnv (Ok (Ok "hello")) true) "s1" "p1"
                           (frameText "questions") sampleWorld).2)
  = [ MessageFrame (Some {| msg_id := "id-1"; msg_sender := bot;
                            msg_content := "論点一覧:" +:+ nl +:+ "1. Should X?";
                            msg_timestamp := 1 |}) ].
Proof. vm_compute. reflexivity. Qed.

(** * Further properties of the code *)

(** ** Frames the handler does not answer with a reply *)

(** X1. A frame that [JSON.parse] rejects is answered by the single frame
    [{error: "Invalid message format"}]; nothing is stored and no
    collaborator is called. *)
Theorem invalid_frame env sid pid data e w :
  decodeFrame env data = Throw e ->
  onMessage env sid pid data w
  = (Ok tt, log [EvWsSend (ErrorFrame "Invalid message format")] w).
Proof.
  intros Hd. unfold onMessage.
  rewrite (try_throw _ _ w e w); [reflexivity |].
  apply bind_throw. unfold lift. by rewrite Hd.
Qed.

Lemma invalid_frame_witness :
  let env := sampleEnv (Ok (Ok "hello")) true in
  onMessage env "s1" "p1" "not-json" sampleWorld
  = (Ok tt, log [EvWsSend (ErrorFrame "Invalid message format")] sampleWorld).
Proof.
  intros env.
  exact (invalid_frame env "s1" "p1" "not-json" (Error "Unexpected token")
           sampleWorld eq_refl).
Defined.

(** X2. A frame whose type is not "message" is ignored: the world after it
    is the world before it, so nothing is sent, stored or called. *)
Theorem other_type_ignored env sid pid data msg w :
  decodeFrame env data = Ok msg ->
  wsm_type msg <> "message" ->
  onMessage env sid pid data w = (Ok tt, w).
Proof.
  intros Hd Ht. unfold onMessage. apply try_ok.
  rewrite (bind_ok _ _ w msg w) by (unfold lift; by rewrite Hd).
  apply String.eqb_neq in Ht. by rewrite Ht.
Qed.

Lemma other_type_ignored_witness :
  let env := {| model_generateContent := fun _ _ => Ok (Ok "hello");
                backend_getProject := fun _ _ => Throw (Error "down");
                backend_postComment := fun _ _ _ => Throw (Error "down");
                backend_getReport := fun _ _ => Throw (Error "down");
                JSON_parse := sampleParse;
                JSON_stringify := fun _ => "{}";
                percent := fun _ => "0.0";
                decodeFrame := fun _ => Ok {| wsm_type := "ping"; wsm_content := "" |};
                handshake := fun _ => true;
                freshId := showNat;
                clock := Z.of_nat |} in
  onMessage env "s1" "p1" "{}" sampleWorld = (Ok tt, sampleWorld).
Proof.
  intros env.
  refine (other_type_ignored env "s1" "p1" "{}"
            {| wsm_type := "ping"; wsm_content := "" |} sampleWorld eq_refl _).
  discriminate.
Defined.

(** ** A turn on a known session *)

Section Turns.

Variable env : Env.

Lemma appended_other sid sid' c s w :
  sid <> sid' ->
  sessions (appended env sid s c w) !! sid' = sessions w !! sid'.
Proof.
  intros Hne. unfold appended. destruct (sessions w !! sid); [|done].
  simpl. by rewrite lookup_insert_ne.
Qed.

Lemma appended_listeners sid c s w :
  listeners (appended env sid s c w) = listeners w.
Proof. unfold appended. by destruct (sessions w !! sid). Qed.

Lemma appended_dom sid c s w :
  dom (sessions (appended env sid s c w)) = dom (sessions w).
Proof.
  unfold appended. destruct (sessions w !! sid) as [session|] eqn:Hs; [|done].
  simpl. rewrite dom_insert_L. apply elem_of_dom_2 in Hs.
  apply set_eq. intros k. rewrite elem_of_union, elem_of_singleton.
  split; [by intros [-> | Hk] | by right].
Qed.

(** Every turn on a known session ends with the reply stored and sent;
    the calls made before the send hold no frame. *)
Lemma turn_run sid pid data msg w s :
  decodeFrame env data = Ok msg ->
  wsm_type msg = "message" ->
  sessions w !! sid = Some s ->
  exists reply evs,
    onMessage env sid pid data w
    = (Ok tt, delivered env sid reply
                (log evs (appended env sid user (wsm_content msg) w))) /\
    frames evs = [].
Proof.
  intros Hd Ht Hs.
  set (w0 := appended env sid user (wsm_content msg) w).
  set (history := session_history s ++ [messageOf env user (wsm_content msg) w]).
  pose proof (getProjectQuestions_run env pid w0) as Hq.
  destruct (String.eqb (toLowerCase (wsm_content msg)) "questions") eqn:Hc.
  - eexists _, [EvBackendGet (projectPath pid)]. split; [| reflexivity].
    apply (onMessage_known env sid pid data msg w s); try done.
    rewrite Hc. unfold questionsCommand. fold w0. by rewrite (bind_ok _ _ _ _ _ Hq).
  - match type of Hq with _ = (Ok ?qs, _) => set (questions := qs) in * end.
    destruct (generateResponse_run env (wsm_content msg) pid questions history
                (log [EvBackendGet (projectPath pid)] w0))
      as (a & evs1 & ctx & evs2 & _ & _ & Hg & _ & Hfr).
    rewrite !log_log in Hg.
    eexists _, _. split.
    + apply (onMessage_known env sid pid data msg w s); try done.
      rewrite Hc. unfold fullPipeline. fold w0. rewrite (bind_ok _ _ _ _ _ Hq).
      fold history. exact Hg.
    + unfold frames in *. rewrite <- !app_assoc, !omap_app in *.
      simpl. simpl in Hfr. exact Hfr.
Qed.

End Turns.

(** X3. Whatever the frame and the world, the handler returns normally,
    sends at most one frame, leaves the listeners as they were, touches no
    session but its own, and neither creates nor removes a session. *)
Theorem turn_sends_at_most_one_frame env sid pid data w :
  exists w' evs,
    onMessage env sid pid data w = (Ok tt, w') /\
    trace w' = trace w ++ evs /\
    (length (frames evs) <= 1)%nat /\
    listeners w' = listeners w /\
    delete sid (sessions w') = delete sid (sessions w) /\
    dom (sessions w') = dom (sessions w).
Proof.
  destruct (decodeFrame env data) as [msg|e] eqn:Hd.
  - destruct (String.eqb (wsm_type msg) "message") eqn:Ht.
    + apply String.eqb_eq in Ht.
      destruct (sessions w !! sid) as [s|] eqn:Hs.
      * destruct (turn_run env sid pid data msg w s Hd Ht Hs) as (reply & evs & -> & Hfr).
        set (w0 := appended env sid user (wsm_content msg) w).
        exists (delivered env sid reply (log evs w0)),
          (evs ++ [EvWsSend (MessageFrame (Some (messageOf env bot reply (log evs w0))))]).
        split; [reflexivity | split; [| split; [| split; [| split]]]].
        -- unfold delivered. simpl. rewrite appended_trace. simpl.
           unfold w0. by rewrite appended_trace, app_assoc.
        -- unfold frames in *. rewrite omap_app, Hfr. simpl. lia.
        -- unfold delivered. simpl. rewrite appended_listeners. simpl.
           apply appended_listeners.
        -- apply map_eq. intros k. destruct (decide (sid = k)) as [<- | Hne].
           ++ by rewrite !lookup_delete_eq.
           ++ rewrite !lookup_delete_ne by done.
              unfold delivered. simpl. rewrite appended_other by done. simpl.
              by apply appended_other.
        -- unfold delivered. simpl. rewrite appended_dom. simpl. apply appended_dom.
      * exists (log [EvWsSend (ErrorFrame "Session not found")] w),
          [EvWsSend (ErrorFrame "Session not found")].
        split; [| by repeat split; simpl; try lia].
        unfold onMessage. apply try_ok.
        rewrite (bind_ok _ _ w msg w) by (unfold lift; by rewrite Hd).
        rewrite Ht, String.eqb_refl.
        by rewrite (bind_ok _ _ _ _ _ (addMessage_unknown env sid _ user w Hs)).
    + exists w, []. rewrite app_nil_r. split; [| by repeat split; simpl; try lia].
      unfold onMessage. apply try_ok.
      rewrite (bind_ok _ _ w msg w) by (unfold lift; by rewrite Hd).
      by rewrite Ht.
  - exists (log [EvWsSend (ErrorFrame "Invalid message format")] w),
      [EvWsSend (ErrorFrame "Invalid message format")].
    split; [| by repeat split; simpl; try lia].
    unfold onMessage. rewrite (try_throw _ _ w e w); [reflexivity |].
    apply bind_throw. unfold lift. by rewrite Hd.
Qed.

(** X16. The session an accepted upgrade creates is known to the handler
    installed for it: whatever frame comes on that connection, the turn is
    not answered with "Session not found", and the session is still known
    after it. *)
Theorem upgrade_then_message env pathname projectId w data :
  ChatPath pathname projectId ->
  handshake env (trace w) = true ->
  let sid := freshId env (draws w) in
  let w1 := (onUpgrade env (Some pathname) w).2 in
  (sid, projectId) ∈ listeners w1 /\
  is_Some (sessions w1 !! sid) /\
  exists w2 evs,
    onMessage env sid projectId data w1 = (Ok tt, w2) /\
    trace w2 = trace w1 ++ evs /\
    (ErrorFrame "Session not found" ∉ frames evs) /\
    is_Some (sessions w2 !! sid).
Proof.
  intros Hpath Hhs sid w1.
  apply matchProjectChat_spec in Hpath.
  assert (Hw1 : w1 = accepted env projectId w).
  { unfold w1, onUpgrade. simpl. rewrite Hpath. unfold bind, call. by rewrite Hhs. }
  assert (Hs : sessions w1 !! sid
               = Some {| session_id := sid; session_projectId := projectId;
                         session_history := []; session_createdAt := clock env (draws w) |}).
  { rewrite Hw1. unfold accepted. simpl. apply lookup_insert_eq. }
  split; [| split; [by rewrite Hs |]].
  - rewrite Hw1. unfold accepted. simpl. apply elem_of_app. right. apply list_elem_of_here.
  - destruct (decodeFrame env data) as [msg|e] eqn:Hd.
    + destruct (String.eqb (wsm_type msg) "message") eqn:Ht.
      * apply String.eqb_eq in Ht.
        destruct (turn_run env sid projectId data msg w1 _ Hd Ht Hs)
          as (reply & evs & -> & Hfr).
        set (w0 := appended env sid user (wsm_content msg) w1).
        pose proof (appended_lookup env sid (wsm_content msg) user w1 _ Hs) as Hs0.
        change (sessions (appended env sid user (wsm_content msg) w1))
          with (sessions (log evs w0)) in Hs0.
        eexists _, (evs ++ [EvWsSend (MessageFrame (Some (messageOf env bot reply (log evs w0))))]).
        split; [reflexivity | split; [| split]].
        -- unfold delivered. simpl. rewrite appended_trace. simpl.
           unfold w0. by rewrite appended_trace, app_assoc.
        -- unfold frames in *. rewrite omap_app, Hfr. simpl.
           intros H. apply list_elem_of_singleton in H. discriminate.
        -- unfold delivered. simpl.
           by rewrite (appended_lookup env sid reply bot _ _ Hs0).
      * exists w1, []. rewrite app_nil_r.
        split; [| split; [done | split; [apply not_elem_of_nil | by rewrite Hs]]].
        unfold onMessage. apply try_ok.
        rewrite (bind_ok _ _ w1 msg w1) by (unfold lift; by rewrite Hd).
        by rewrite Ht.
    + exists (log [EvWsSend (ErrorFrame "Invalid message format")] w1),
        [EvWsSend (ErrorFrame "Invalid message format")].
      split; [| split; [done | split; [| simpl; by rewrite Hs]]].
      * unfold onMessage. rewrite (try_throw _ _ w1 e w1); [reflexivity |].
        apply bind_throw. unfold lift. by rewrite Hd.
      * simpl. intros H. apply list_elem_of_singleton in H. discriminate.
Qed.

Lemma upgrade_then_message_witness :
  let env := sampleEnv (Ok (Ok "hello")) true in
  let w1 := (onUpgrade env (Some "/project/p9/chat") sampleWorld).2 in
  ("id-0", "p9") ∈ listeners w1 /\
  is_Some (sessions w1 !! "id-0") /\
  exists w2 evs,
    onMessage env "id-0" "p9" (frameText "questions") w1 = (Ok tt, w2) /\
    trace w2 = trace w1 ++ evs /\
    (ErrorFrame "Session not found" ∉ frames evs) /\
    is_Some (sessions w2 !! "id-0").
Proof.
  intros env.
  refine (upgrade_then_message env "/project/p9/chat" "p9" sampleWorld
            (frameText "questions") _ eq_refl).
  apply matchProjectChat_spec. reflexivity.
Defined.

(** ** The project questions *)

(** X5. [getProjectQuestions] makes one call, [GET /projects/{id}], and
    never throws: it returns the questions of the answer in their order, the
    empty list when the answer has no [questions], and the empty list when
    the call throws. *)
Theorem getProjectQuestions_spec env projectId w :
  exists questions,
    getProjectQuestions env projectId w
    = (Ok questions, log [EvBackendGet ("/projects/" +:+ projectId)] w) /\
    match backend_getProject env (trace w) ("/projects/" +:+ projectId) with
    | Ok {| project_questions := Some listed |} => questions = listed
    | Ok {| project_questions := None |} => questions = []
    | Throw _ => questions = []
    end.
Proof.
  eexists. split; [apply getProjectQuestions_run |].
  unfold projectPath.
  by destruct (backend_getProject env (trace w) _) as [[[listed|]]|e].
Qed.

(** ** The analysis *)

Section Analysis.

Variable env : Env.

Lemma parseExtraction_claim_inv t w c w' :
  parseExtraction env t w = (Ok (inl (HasContent c)), w') ->
  exists v, JSON_parse env t = Ok v /\
            member v "hasContent" = Some (JBool true) /\
            member v "content" = Some (JString c).
Proof.
  unfold parseExtraction, try_catch, bind, lift, ret, throw.
  destruct (JSON_parse env t) as [v|e]; [|discriminate].
  destruct (getProp_member v "hasContent") as [-> | [_ [e ->]]]; [|discriminate].
  destruct (member v "hasContent") as [[| [] | | | |]|] eqn:Hb; try discriminate.
  destruct (getProp_member v "content") as [-> | [-> _]]; [|discriminate].
  destruct (member v "content") as [[| | | c' | |]|] eqn:Hc; try discriminate.
  intros [= <- <-]. by exists v.
Qed.

(** The two ways [analyzeUserMessage] runs: without a post, to the empty
    result; or with the post of a validated claim. *)
Lemma analyzeUserMessage_cases u p h w :
  let w1 := log [EvGenerateContent (extractionRequest u h)] w in
  (analyzeUserMessage env u p h w = (Ok emptyAnalysis, w1) /\
   forall text v c,
     model_generateContent env (trace w) (extractionRequest u h) = Ok (Ok text) ->
     JSON_parse env (trim text) = Ok v ->
     member v "hasContent" = Some (JBool true) ->
     member v "content" <> Some (JString c)) \/
  (exists text v c,
     model_generateContent env (trace w) (extractionRequest u h) = Ok (Ok text) /\
     JSON_parse env (trim text) = Ok v /\
     member v "hasContent" = Some (JBool true) /\
     member v "content" = Some (JString c) /\
     let body := {| cb_content := c; cb_sourceType := "other" |} in
     analyzeUserMessage env u p h w
     = (Ok match backend_postComment env (trace w1) (commentsPath p) body with
           | Ok r => {| commentId := Some (comment_id r);
                        relatedQuestions := relatedOf r |}
           | Throw _ => emptyAnalysis
           end,
        log [EvBackendPost (commentsPath p) body] w1)).
Proof.
  intros w1. unfold analyzeUserMessage, try_catch, bind, call, lift, ret. fold w1.
  destruct (model_generateContent env (trace w) _) as [[text|e]|e];
    [| left; split; [reflexivity | discriminate] ..].
  destruct (parseExtraction_pure env (trim text)) as [x Hx].
  destruct x as [[|c]|early].
  - left. pose proof (Hx w1) as Hx1. rewrite Hx. split; [reflexivity |].
    intros text' v c [= <-] Hv Hb Hc.
    by rewrite (parseExtraction_claim env _ w1 v c Hv Hb Hc) in Hx1.
  - right. destruct (parseExtraction_claim_inv _ _ _ _ (Hx w1)) as (v & Hv & Hb & Hc).
    exists text, v, c. rewrite Hx. repeat (split; [done |]). simpl.
    by destruct (backend_postComment env _ _ _).
  - left. pose proof (Hx w1) as Hx1. rewrite Hx.
    assert (early = emptyAnalysis) as ->.
    { revert Hx1. unfold parseExtraction, try_catch, bind, lift, ret, throw.
      destruct (JSON_parse env (trim text)) as [v|e]; [| by intros [= <-]].
      destruct (getProp v "hasContent") as [[[| [] | | | |]|]|e];
        try by intros [= <-].
      destruct (getProp v "content") as [[[| | | c | |]|]|e]; by intros [= <-]. }
    split; [reflexivity |].
    intros text' v c [= <-] Hv Hb Hc.
    by rewrite (parseExtraction_claim env _ w1 v c Hv Hb Hc) in Hx1.
Qed.

End Analysis.

(** X6. [analyzeUserMessage] posts a comment exactly when the extraction
    yields a claim: then it posts once, to [/projects/{id}/comments], the
    claim as [content] with [sourceType] "other", after the request to the
    model; in every other case (the model call or the reading of its text
    throws, the text is rejected, or [hasContent] is [false]) the request to
    the model is its only call and its result is empty. *)
Theorem comment_posted_only_for_claim env u p h w :
  let w1 := log [EvGenerateContent (extractionRequest u h)] w in
  ((forall claim, ~ extractedClaim env w u h claim) /\
   analyzeUserMessage env u p h w
   = (Ok {| commentId := None; relatedQuestions := None |}, w1)) \/
  (exists claim a,
     extractedClaim env w u h claim /\
     analyzeUserMessage env u p h w
     = (Ok a, log [EvBackendPost ("/projects/" +:+ p +:+ "/comments")
                                 {| cb_content := claim; cb_sourceType := "other" |}] w1)).
Proof.
  intros w1.
  destruct (analyzeUserMessage_cases env u p h w) as [[Ha Hno] | (text & v & c & Hm & Hv & Hb & Hc & Ha)].
  - left. split; [| exact Ha].
    intros claim (text & v & Hm & Hv & Hb & Hc). by apply (Hno text v claim).
  - right. exists c. eexists. split; [by exists text, v | exact Ha].
Qed.

(** X7. The result of [analyzeUserMessage] is either empty or carries a
    comment id; related questions come only with a comment id and are never
    an empty list. *)
Theorem analysis_result_shape env u p h w :
  exists a w',
    analyzeUserMessage env u p h w = (Ok a, w') /\
    (a = {| commentId := None; relatedQuestions := None |} \/
     exists id, commentId a = Some id /\
                (relatedQuestions a = None \/
                 exists first others, relatedQuestions a = Some (first :: others))).
Proof.
  destruct (analyzeUserMessage_cases env u p h w) as [[Ha _] | (text & v & c & _ & _ & _ & _ & Ha)].
  - eexists _, _. split; [exact Ha | by left].
  - simpl in Ha. eexists _, _. split; [exact Ha |].
    destruct (backend_postComment env _ _ _) as [r|e]; [right | by left].
    exists (comment_id r). split; [reflexivity |]. simpl. unfold relatedOf.
    destruct (omap firstStance (analyzedQuestions r)) as [|x l]; [by left |].
    right. by exists x, l.
Qed.

(** X8. The related questions keep the order of the analysed questions of
    the response and invent none: their ids and texts form a sublist of the
    ids and texts of the analysed questions. *)
Theorem related_questions_in_order (r : CommentResponse) :
  ((fun q => (rq_id q, rq_text q)) <$> default [] (relatedOf r))
  `sublist_of` ((fun q => (aq_id q, aq_text q)) <$> analyzedQuestions r).
Proof.
  assert (Hd : default [] (relatedOf r) = omap firstStance (analyzedQuestions r)).
  { unfold relatedOf. by destruct (omap firstStance (analyzedQuestions r)). }
  rewrite Hd. clear Hd.
  induction (analyzedQuestions r) as [|q qs IH]; [constructor |].
  rewrite fmap_cons.
  assert (Ho : omap firstStance (q :: qs)
               = match firstStance q with
                 | Some x => x :: omap firstStance qs
                 | None => omap firstStance qs
                 end) by reflexivity.
  rewrite Ho. unfold firstStance at 1.
  destruct (aq_stances q) as [|stance rest]; simpl.
  - by apply sublist_cons.
  - by apply sublist_skip.
Qed.

(** ** The context and the generation *)

Section Context.

Variable env : Env.

Lemma resolveContext_without p a w :
  relatedQuestions a = None \/ relatedQuestions a = Some [] ->
  resolveContext env p a w = (Ok "", w).
Proof. unfold resolveContext. by intros [-> | ->]. Qed.

Lemma resolveContext_with p a w x l :
  relatedQuestions a = Some (x :: l) ->
  let path := stanceAnalysisPath p (rq_id (fold_left moreConfident l x)) in
  resolveContext env p a w
  = (Ok match backend_getReport env (trace w) path with
        | Ok report => contextBlock env (fold_left moreConfident l x) report
        | Throw _ => ""
        end,
     log [EvBackendGet path] w).
Proof.
  intros Hr path. unfold resolveContext. rewrite Hr.
  unfold bind, lift, reduce, try_catch, call, ret. fold path.
  by destruct (backend_getReport env (trace w) path).
Qed.

(** The end of [generateResponse], once the analysis and the context are
    known. *)
Lemma generateResponse_after u p qs h w a w1 ctx w2 :
  analyzeUserMessage env u p h w = (Ok a, w1) ->
  resolveContext env p a w1 = (Ok ctx, w2) ->
  generateResponse env u p qs h w
  = (Ok match model_generateContent env (trace w2) (generationRequest u qs ctx h) with
        | Ok (Ok text) => text
        | _ => apology
        end,
     log [EvGenerateContent (generationRequest u qs ctx h)] w2).
Proof.
  intros Ha Hc. unfold generateResponse, generateBody, try_catch.
  rewrite (bind_ok _ _ _ _ _ Ha), (bind_ok _ _ _ _ _ Hc).
  unfold bind, call, lift, ret.
  by destruct (model_generateContent env _ _) as [[text|e]|e].
Qed.

End Context.

(** X9. When the analysis found related questions and the fetch of the
    stance analysis throws, [generateResponse] goes on without context: the
    instruction of the generation request is the one with no context block,
    the request is made, and the reply is the text of the model (or the
    apology when that request fails). *)
Theorem context_degrades env u p qs h w a w1 first others e :
  analyzeUserMessage env u p h w = (Ok a, w1) ->
  relatedQuestions a = Some (first :: others) ->
  let primary := fold_left moreConfident others first in
  let fetch := EvBackendGet (stanceAnalysisPath p (rq_id primary)) in
  backend_getReport env (trace w1) (stanceAnalysisPath p (rq_id primary)) = Throw e ->
  generateResponse env u p qs h w
  = (Ok match model_generateContent env (trace w1 ++ [fetch])
                                    (generationRequest u qs "" h) with
        | Ok (Ok text) => text
        | _ => apology
        end,
     log [fetch; EvGenerateContent (generationRequest u qs "" h)] w1).
Proof.
  intros Ha Hr primary fetch Hfail.
  pose proof (resolveContext_with env p a w1 first others Hr) as Hc.
  simpl in Hc. fold primary in Hc. rewrite Hfail in Hc.
  rewrite (generateResponse_after env u p qs h w a w1 _ _ Ha Hc).
  by rewrite log_log.
Qed.

(** X12. When the analysis found related questions and the stance
    analysis of the primary one is fetched, the instruction of the generation
    request carries the context block of that question and that report,
    between two texts that do not depend on them. *)
Theorem context_included env u p qs h w a w1 first others report :
  analyzeUserMessage env u p h w = (Ok a, w1) ->
  relatedQuestions a = Some (first :: others) ->
  let primary := fold_left moreConfident others first in
  let fetch := EvBackendGet (stanceAnalysisPath p (rq_id primary)) in
  backend_getReport env (trace w1) (stanceAnalysisPath p (rq_id primary)) = Ok report ->
  let ctx := contextBlock env primary report in
  (generateResponse env u p qs h w).2
  = log [fetch; EvGenerateContent (generationRequest u qs ctx h)] w1 /\
  exists before after,
    systemPrompt qs ctx = before +:+ ctx +:+ after /\
    systemPrompt qs "" = before +:+ after.
Proof.
  intros Ha Hr primary fetch Hok ctx.
  pose proof (resolveContext_with env p a w1 first others Hr) as Hc.
  simpl in Hc. fold primary in Hc. rewrite Hok in Hc. fold ctx in Hc.
  rewrite (generateResponse_after env u p qs h w a w1 _ _ Ha Hc).
  split; [cbn [snd]; apply log_log |].
  assert (He : String.eqb ctx "" = false) by reflexivity.
  unfold systemPrompt. rewrite He, String.eqb_refl.
  match goal with
  | |- exists _ _, nl +:+ ?t1 +:+ ?lines +:+ ?t2 +:+ _ +:+ ?t3 = _ /\ _ =>
      exists (nl +:+ t1 +:+ lines +:+ t2), t3
  end.
  rewrite !append_assoc. split; reflexivity.
Qed.

Lemma context_degrades_witness :
  let env := withoutReports (sampleEnv (Ok (Ok claimText)) true) in
  let u := "I think X is needed" in
  let w1 := log [EvBackendPost "/projects/p1/comments"
                   {| cb_content := "X is needed"; cb_sourceType := "other" |}]
                (log [EvGenerateContent (extractionRequest u [])] sampleWorld) in
  let fetch := EvBackendGet "/projects/p1/questions/q1/stance-analysis" in
  generateResponse env u "p1" [sampleQuestion] [] sampleWorld
  = (Ok claimText,
     log [fetch; EvGenerateContent (generationRequest u [sampleQuestion] "" [])] w1).
Proof.
  intros env u w1 fetch.
  exact (context_degrades env u "p1" [sampleQuestion] [] sampleWorld
           {| commentId := Some "c1"; relatedQuestions := Some [sampleRelatedQuestion] |}
           w1 sampleRelatedQuestion []
           (Error "Request failed with status code 404") eq_refl eq_refl eq_refl).
Defined.

Lemma context_included_witness :
  let env := sampleEnv (Ok (Ok claimText)) true in
  let u := "I think X is needed" in
  let w1 := log [EvBackendPost "/projects/p1/comments"
                   {| cb_content := "X is needed"; cb_sourceType := "other" |}]
                (log [EvGenerateContent (extractionRequest u [])] sampleWorld) in
  let fetch := EvBackendGet "/projects/p1/questions/q1/stance-analysis" in
  let ctx := contextBlock env sampleRelatedQuestion (JObject []) in
  (generateResponse env u "p1" [sampleQuestion] [] sampleWorld).2
  = log [fetch; EvGenerateContent (generationRequest u [sampleQuestion] ctx [])] w1 /\
  exists before after,
    systemPrompt [sampleQuestion] ctx = before +:+ ctx +:+ after /\
    systemPrompt [sampleQuestion] "" = before +:+ after.
Proof.
  intros env u w1 fetch ctx.
  exact (context_included env u "p1" [sampleQuestion] [] sampleWorld
           {| commentId := Some "c1"; relatedQuestions := Some [sampleRelatedQuestion] |}
           w1 sampleRelatedQuestion [] (JObject []) eq_refl eq_refl eq_refl).
Defined.

(** X10. The reply of [generateResponse] is decided by its last request
    alone: it is the text the model gives to the generation request, and the
    apology only when that request or the reading of its text throws. What
    happened before (a failed extraction, a failed post, a failed fetch)
    changes the context of that request, not this rule. *)
Theorem reply_is_model_text env u p qs h w :
  exists evs ctx,
    generateResponse env u p qs h w
    = (Ok match model_generateContent env (trace w ++ evs) (generationRequest u qs ctx h) with
          | Ok (Ok text) => text
          | _ => "すみません、応答の生成中にエラーが発生しました。APIキーの設定や権限を確認してください。"
          end,
       log (evs ++ [EvGenerateContent (generationRequest u qs ctx h)]) w).
Proof.
  destruct (generateResponse_run env u p qs h w)
    as (a & evs1 & ctx & evs2 & _ & _ & Hg & _ & _).
  exists (evs1 ++ evs2), ctx. rewrite Hg, !log_log. reflexivity.
Qed.

(** X11. The calls of [generateResponse] are, in this order: the
    extraction request; the post of the comment, if a claim was extracted;
    the fetch of one stance analysis, if the post gave related questions; the
    generation request. So it makes at most four calls, never repeats one,
    sends no frame, and leaves the sessions and the listeners as they were.
    Without a fetch the generation request has no context. *)
Theorem generateResponse_calls env u p qs h w :
  let extraction := EvGenerateContent (extractionRequest u h) in
  let generation ctx := EvGenerateContent (generationRequest u qs ctx h) in
  exists reply evs,
    generateResponse env u p qs h w = (Ok reply, log evs w) /\
    (evs = [extraction; generation ""] \/
     (exists body,
        evs = [extraction; EvBackendPost (commentsPath p) body; generation ""]) \/
     (exists body id ctx,
        evs = [extraction; EvBackendPost (commentsPath p) body;
               EvBackendGet (stanceAnalysisPath p id); generation ctx])).
Proof.
  intros extraction generation.
  destruct (analyzeUserMessage_cases env u p h w)
    as [[Ha _] | (text & v & c & _ & _ & _ & _ & Ha)].
  - pose proof (resolveContext_without env p emptyAnalysis
                  (log [extraction] w) (or_introl eq_refl)) as Hc.
    eexists _, _. split; [| left; reflexivity].
    rewrite (generateResponse_after env u p qs h w _ _ _ _ Ha Hc).
    by rewrite log_log.
  - simpl in Ha.
    set (body := {| cb_content := c; cb_sourceType := "other" |}) in *.
    set (w1 := log [EvBackendPost (commentsPath p) body] (log [extraction] w)) in *.
    match type of Ha with _ = (Ok ?x, _) => set (a := x) in * end.
    destruct (relatedQuestions a) as [[|first others]|] eqn:Hr.
    + pose proof (resolveContext_without env p a w1 (or_intror Hr)) as Hc.
      eexists _, _. split; [| right; left; exists body; reflexivity].
      rewrite (generateResponse_after env u p qs h w _ _ _ _ Ha Hc).
      unfold w1. by rewrite !log_log.
    + pose proof (resolveContext_with env p a w1 first others Hr) as Hc. simpl in Hc.
      eexists _, _. split; [| right; right; eexists body, _, _; reflexivity].
      rewrite (generateResponse_after env u p qs h w _ _ _ _ Ha Hc).
      unfold w1. by rewrite !log_log.
    + pose proof (resolveContext_without env p a w1 (or_introl Hr)) as Hc.
      eexists _, _. split; [| right; left; exists body; reflexivity].
      rewrite (generateResponse_after env u p qs h w _ _ _ _ Ha Hc).
      unfold w1. by rewrite !log_log.
Qed.

(** ** The history as text *)

(** X13. [formatChatHistory] gives the empty text for an empty history
    and one line "<label>: <content>" per message, with a line break between
    two lines and none at either end: the text of two non-empty histories put
    end to end is the two texts with one line break between them. *)
Theorem formatChatHistory_lines :
  formatChatHistory [] = "" /\
  (forall m, formatChatHistory [m]
             = match msg_sender m with user => "ユーザー" | bot => "アシスタント" end
               +:+ ": " +:+ msg_content m) /\
  (forall a h1 b h2,
      formatChatHistory ((a :: h1) ++ b :: h2)
      = formatChatHistory (a :: h1) +:+ nl +:+ formatChatHistory (b :: h2)).
Proof.
  split; [reflexivity | split].
  - intros m. unfold formatChatHistory, historyLine, roleLabel. simpl.
    by destruct (msg_sender m).
  - intros a h1 b h2. unfold formatChatHistory.
    rewrite map_app. simpl map. apply join_app.
Qed.

(** ** The command word *)

Lemma lowerByte_letter c d :
  (97 <= nat_of_ascii d <= 122)%nat ->
  lowerByte c = d <-> caseVariant c d.
Proof.
  intros Hd. unfold lowerByte, caseVariant.
  pose proof (nat_ascii_bounded c) as Hc.
  destruct ((65 <=? nat_of_ascii c)%nat && (nat_of_ascii c <=? 90)%nat) eqn:E.
  - apply andb_true_iff in E as [E1 E2].
    apply Nat.leb_le in E1. apply Nat.leb_le in E2. split.
    + intros <-. right. rewrite nat_ascii_embedding; lia.
    + intros [-> | H]; [lia |].
      rewrite H. apply ascii_nat_embedding.
  - split; [by left |]. intros [-> | H]; [done |].
    apply andb_false_iff in E as [E | E]; apply Nat.leb_gt in E; lia.
Qed.

Lemma toLowerCase_variants (t : string) :
  Forall (fun d => (97 <= nat_of_ascii d <= 122)%nat) (list_ascii_of_string t) ->
  forall s, toLowerCase s = t
            <-> Forall2 caseVariant (list_ascii_of_string s) (list_ascii_of_string t).
Proof.
  induction t as [|d t IH]; intros Ht s.
  - destruct s as [|c s]; simpl.
    + split; [constructor | done].
    + split; [discriminate | intros H; inversion H].
  - simpl in Ht. apply Forall_cons in Ht as [Hd Ht].
    destruct s as [|c s]; simpl; [split; [done | intros H; inversion H] |].
    split.
    + intros [= Hc Hs]. constructor; [by apply lowerByte_letter | by apply IH].
    + intros H. apply Forall2_cons in H as [Hc Hs].
      f_equal; [by apply lowerByte_letter | by apply IH].
Qed.

(** X14. The turn takes the content for the command exactly when it is
    the word "questions" with each letter in either case: nine bytes, the
    i-th being the i-th letter of the word or its capital. Any other content,
    a padded or a longer one included, is not the command. *)
Theorem command_recognition (content : string) :
  toLowerCase content = "questions"
  <-> Forall2 caseVariant (list_ascii_of_string content)
                          (list_ascii_of_string "questions").
Proof.
  apply toLowerCase_variants. simpl. repeat constructor.
Qed.

Lemma command_recognition_witness :
  toLowerCase "QuEsTiOnS" = "questions" /\
  ~ Forall2 caseVariant (list_ascii_of_string "questions ")
                        (list_ascii_of_string "questions").
Proof.
  split.
  - apply (proj2 (command_recognition "QuEsTiOnS")). simpl.
    repeat constructor; (by left) || (by right).
  - intros H. apply (proj2 (command_recognition "questions ")) in H. discriminate.
Defined.

(** ** What follows the path *)

Lemma append_nonempty_r (a b : string) : a +:+ b = a -> b = "".
Proof.
  induction a as [|x a IH]; [done |].
  rewrite append_cons. intros [= H]. by apply IH.
Qed.

(** X15. Nothing may follow [/chat]: a target made of an accepted path and
    any non-empty rest (a query string, a trailing slash) does not match, and
    the upgrade is refused by destroying the socket. *)
Theorem nothing_after_chat pathname projectId rest :
  ChatPath pathname projectId ->
  rest <> "" ->
  matchProjectChat (pathname +:+ rest) = None /\
  forall env w,
    onUpgrade env (Some (pathname +:+ rest)) w = (Ok tt, log [EvSocketDestroy] w).
Proof.
  intros (-> & Hne & Hno) Hrest.
  assert (Hm : matchProjectChat (("/project/" +:+ projectId +:+ "/chat") +:+ rest) = None).
  { unfold matchProjectChat.
    rewrite (proj2 (stripPrefix_spec "/project/" _ (projectId +:+ "/chat" +:+ rest)))
      by (by rewrite !append_assoc).
    rewrite (spanNot_complete "/" projectId ("/chat" +:+ rest) Hno)
      by (right; by eexists).
    apply String.eqb_neq in Hne. rewrite Hne.
    destruct (String.eqb ("/chat" +:+ rest) "/chat") eqn:E; [|done].
    apply String.eqb_eq, append_nonempty_r in E. by destruct Hrest. }
  split; [exact Hm |].
  intros env w. unfold onUpgrade. simpl. by rewrite Hm.
Qed.

Lemma nothing_after_chat_witness :
  matchProjectChat ("/project/p1/chat" +:+ "?token=1") = None /\
  forall env w,
    onUpgrade env (Some ("/project/p1/chat" +:+ "?token=1")) w
    = (Ok tt, log [EvSocketDestroy] w).
Proof.
  refine (nothing_after_chat "/project/p1/chat" "p1" "?token=1" _ _).
  - apply matchProjectChat_spec. reflexivity.
  - discriminate.
Defined.

(** ** Start-up *)

Lemma truthy_spec v :
  match truthy v with
  | Some s => v = Some s /\ s <> ""
  | None => unset v
  end.
Proof.
  unfold truthy, unset. destruct v as [s|]; [|by left].
  destruct (String.eqb s "") eqn:E.
  - apply String.eqb_eq in E as ->. by right.
  - apply String.eqb_neq in E. by split.
Qed.

(** X17. The process exits, with code 1, exactly when [GEMINI_API_KEY]
    or [ADMIN_API_KEY] is missing or empty. Otherwise the model is
    "gemini-2.0-flash" with the first key, the backend is called with the
    second key as [x-api-key] at [BACKEND_API_URL], or at
    [http://localhost:3001/api] when that variable is missing or empty, and
    the server listens on [PORT], or on 3030 when it is missing or empty. *)
Theorem startup_spec e :
  match startup e with
  | inl code =>
      code = 1%Z /\ (unset (GEMINI_API_KEY e) \/ unset (ADMIN_API_KEY e))
  | inr c =>
      (GEMINI_API_KEY e = Some (cfg_geminiKey c) /\ cfg_geminiKey c <> "") /\
      (ADMIN_API_KEY e = Some (cfg_xApiKey c) /\ cfg_xApiKey c <> "") /\
      cfg_model c = "gemini-2.0-flash" /\
      ((BACKEND_API_URL e = Some (cfg_baseURL c) /\ cfg_baseURL c <> "") \/
       (unset (BACKEND_API_URL e) /\ cfg_baseURL c = "http://localhost:3001/api")) /\
      ((exists port, PORT e = Some port /\ port <> "" /\ cfg_port c = inl port) \/
       (unset (PORT e) /\ cfg_port c = inr 3030%Z))
  end.
Proof.
  unfold startup.
  pose proof (truthy_spec (GEMINI_API_KEY e)) as Hg.
  pose proof (truthy_spec (ADMIN_API_KEY e)) as Ha.
  pose proof (truthy_spec (BACKEND_API_URL e)) as Hu.
  pose proof (truthy_spec (PORT e)) as Hp.
  destruct (truthy (GEMINI_API_KEY e)) as [g|]; [| split; [done | by left]].
  destruct (truthy (ADMIN_API_KEY e)) as [a|]; [| split; [done | by right]].
  simpl. split; [done | split; [done | split; [done | split]]].
  - destruct (truthy (BACKEND_API_URL e)) as [url|]; simpl; [by left | by right].
  - destruct (truthy (PORT e)) as [port|]; [left | by right].
    exists port. by destruct Hp.
Qed.
